(** * Fetch-doccy: the query-serving pipeline

    A shallow embedding of the TypeScript services of the repository:
    the query planner of [OpenSearchService.search], the cache-aside layer
    ([CacheService] over [RedisService]), the fixed-window [rateLimiter]
    middleware and the document and search routes.

    Conventions.
    - A JavaScript string is a [string] whose characters are the UTF-16 code
      units below 256; tenant ids, cache keys and index ids live there.
    - A JavaScript number that the code only ever uses as an integer
      (epoch milliseconds, counters, offsets, limits) is a [Z].
    - [undefined]/[null] is [None].
    - The two external systems are explicit state: the Redis key space is a
      [gmap] from keys to serialized values with their expiry, the index
      engine is a [gmap] from index ids to stored bodies. Either can be
      unreachable, in which case every client call throws, and a Redis
      command can be made to fail on its own.
    - The clock stands still while one request is served; [set_clock]
      moves it between requests.
    - A log line keeps its level and its message, not its metadata. *)

From Stdlib Require Import ZArith List Ascii String Bool Lia.
From stdpp Require Import base option gmap strings list pretty.

Import ListNotations.
Local Open Scope string_scope.
Local Open Scope Z_scope.

(** ** JavaScript primitives used by the services *)

Module Js.

(** Truthiness of a string: only the empty string is falsy. *)
Definition truthy_str (s : string) : bool :=
  match s with
  | EmptyString => false
  | String _ _ => true
  end.

(** Truthiness of an optional string ([undefined] is falsy). *)
Definition truthy_ostr (o : option string) : bool :=
  match o with
  | Some s => truthy_str s
  | None => false
  end.

(** [x || d] on an optional integer number: [undefined] and [0] are falsy. *)
Definition num_or (o : option Z) (d : Z) : Z :=
  match o with
  | Some n => if n =? 0 then d else n
  | None => d
  end.

(** [x || d] on an optional string. *)
Definition str_or (o : option string) (d : string) : string :=
  match o with
  | Some s => if truthy_str s then s else d
  | None => d
  end.

(** White space and line terminators of ECMAScript among the code units
    below 256: TAB, LF, VT, FF, CR, SPACE and NO-BREAK SPACE. *)
Definition is_white (c : ascii) : bool :=
  let n := nat_of_ascii c in
  ((9 <=? n) && (n <=? 13) || (n =? 32) || (n =? 160))%nat.

Fixpoint trimStart (s : string) : string :=
  match s with
  | EmptyString => EmptyString
  | String c s' => if is_white c then trimStart s' else s
  end.

Definition trimEnd (s : string) : string :=
  String.rev (trimStart (String.rev s)).

(** [String.prototype.trim]. *)
Definition trim (s : string) : string := trimEnd (trimStart s).

(** [\d] of a regular expression without the unicode-sets flag. *)
Definition is_digit (c : ascii) : bool :=
  let n := nat_of_ascii c in ((48 <=? n) && (n <=? 57))%nat.

Fixpoint all_digits (s : string) : bool :=
  match s with
  | EmptyString => true
  | String c s' => is_digit c && all_digits s'
  end.

(** [/^\d+$/.test(s)] *)
Definition digits_only (s : string) : bool :=
  truthy_str s && all_digits s.

Fixpoint Number_go (acc : Z) (s : string) : Z :=
  match s with
  | EmptyString => acc
  | String c s' => Number_go (10 * acc + (Z.of_nat (nat_of_ascii c) - 48)) s'
  end.

(** [Number(s)] on a string of decimal digits. The value is exact here;
    the source rounds to the nearest double, which agrees below 2^53 and
    preserves every comparison against a small integer. *)
Definition Number (s : string) : Z := Number_go 0 s.

(** [Math.ceil(a / b)] for integers with [b > 0]. *)
Definition ceil_div (a b : Z) : Z := - ((- a) / b).

(** [n.toString()] and template interpolation of an integer. *)
Definition toString (n : Z) : string := pretty n.

(** [s.substring(0, n)] *)
Definition prefix (n : nat) (s : string) : string := String.substring 0 n s.

Fixpoint zeros (n : nat) : string :=
  match n with
  | O => EmptyString
  | S n' => String "0" (zeros n')
  end.

(** A non-negative integer on at least [width] digits. *)
Definition padded (width : nat) (n : Z) : string :=
  let s := toString n in
  zeros (width - String.length s) +:+ s.

(** [ms / 1000] printed by a template: the quotient, and the thousandths
    without their trailing zeros when there are any. Exact while the
    quotient prints in plain decimal notation. *)
Definition seconds_of_ms (ms : Z) : string :=
  let a := Z.abs ms in
  let frac := a mod 1000 in
  let digits :=
    if frac mod 100 =? 0 then toString (frac / 100)
    else if frac mod 10 =? 0 then padded 2 (frac / 10)
    else padded 3 frac in
  (if ms <? 0 then "-" else EmptyString) +:+ toString (a / 1000) +:+
  (if frac =? 0 then EmptyString else "." +:+ digits).

(** Year, month and day of the proleptic Gregorian calendar for a count
    of days since 1970-01-01. *)
Definition civil_from_days (days : Z) : Z * Z * Z :=
  let z := days + 719468 in
  let era := z / 146097 in
  let doe := z - era * 146097 in
  let yoe := (doe - doe / 1460 + doe / 36524 - doe / 146096) / 365 in
  let doy := doe - (365 * yoe + yoe / 4 - yoe / 100) in
  let mp := (5 * doy + 2) / 153 in
  let d := doy - (153 * mp + 2) / 5 + 1 in
  let m := if mp <? 10 then mp + 3 else mp - 9 in
  let y := yoe + era * 400 in
  (if m <=? 2 then y + 1 else y, m, d).

(** [new Date(ms).toISOString()], for the instants a [Date] can hold. *)
Definition toISOString (ms : Z) : string :=
  let '(y, m, d) := civil_from_days (ms / 86400000) in
  let t := ms mod 86400000 in
  let year :=
    if (0 <=? y) && (y <=? 9999) then padded 4 y
    else if y <? 0 then "-" +:+ padded 6 (- y)
    else "+" +:+ padded 6 y in
  year +:+ "-" +:+ padded 2 m +:+ "-" +:+ padded 2 d +:+ "T"
       +:+ padded 2 (t / 3600000) +:+ ":"
       +:+ padded 2 ((t / 60000) mod 60) +:+ ":"
       +:+ padded 2 ((t / 1000) mod 60) +:+ "."
       +:+ padded 3 (t mod 1000) +:+ "Z".

End Js.

(** ** Data model (types.ts) *)

Record Metadata := {
  md_author : option string;
  md_type : option string;
  md_department : option string
}.

Record Document := {
  doc_id_opt : option string;        (* id?: string *)
  doc_tenantId : string;
  doc_title : string;
  doc_content : string;
  doc_tags : option (list string);
  doc_metadata : option Metadata;
  doc_createdAt : option string;
  doc_updatedAt : option string
}.

Record DocumentIndex := {
  tenant_id : string;
  doc_id : string;
  ix_title : string;
  ix_content : string;
  ix_tags : option (list string);
  ix_metadata : option Metadata;
  created_at : string;
  updated_at : string
}.

Record SearchQuery := {
  q : string;
  sq_offset : option Z;
  sq_limit : option Z;
  sq_tag : option string;
  sq_author : option string;
  sq_from : option string;
  sq_to : option string
}.

Record SearchResult := {
  sr_id : string;
  sr_title : string;
  sr_snippet : string;
  sr_score : Z;                      (* the engine's score, carried through *)
  sr_tags : list string
}.

Record SearchResponse := {
  resp_tenantId : string;
  resp_query : string;
  resp_offset : Z;
  resp_limit : Z;
  resp_total : Z;
  resp_results : list SearchResult
}.

(** ** The query plan handed to the index engine *)

Inductive query_leaf :=
| MultiMatch (query : string) (fields : list string) (type operator : string).

Inductive clause :=
| Term (field value : string)
| Range (field : string) (gte lte : option string)
| MatchAll
| BoolShould (should : list query_leaf).

Record Highlight := {
  hl_field : string;
  hl_fragment_size : option Z;
  hl_number_of_fragments : option Z
}.

Record SearchBody := {
  must : list clause;
  filter : list clause;
  from : Z;
  size : Z;
  _source : list string;
  highlight : list Highlight
}.

(** What the engine answers for one hit: the requested [_source] fields, the
    highlighted fragments when there are any, and the score. *)
Record HitSource := {
  hs_doc_id : string;
  hs_title : string;
  hs_content : string;
  hs_tags : option (list string)
}.

Record HitHighlight := {
  hh_content : option (list string);
  hh_title : option (list string)
}.

Record Hit := {
  hit_source : HitSource;
  hit_highlight : option HitHighlight;
  hit_score : Z
}.

Record SearchHits := {
  hits : option (list Hit);          (* response.body.hits.hits *)
  total_value : Z                    (* response.body.hits.total.value *)
}.

(** ** Errors, log lines and metrics *)

Inductive error :=
| AppError (statusCode : Z) (message : string)
| ClientError (statusCode : option Z) (message : string).

Inductive Level := Debug | Info | Warn | Error.

Record LogEntry := { level : Level; msg : string }.

Inductive Metric :=
| CacheHit (cache_type : string)
| CacheMiss (cache_type : string).

(** ** The two external systems *)

(** A value held by Redis, as [JSON.parse] gives it back. [JSON.stringify]
    followed by [JSON.parse] is the identity on the three shapes the
    services store. *)
Inductive value :=
| VNum (n : Z)
| VDoc (d : Document)
| VSearch (r : SearchResponse).

Record Entry := {
  e_value : value;
  e_expireAt : option Z              (* epoch milliseconds, [None]: no expiry *)
}.

Record Redis := {
  redis_up : bool;                   (* the server can be reached *)
  redis_faults : list bool;          (* forced on the coming commands, in
                                        order: [true] makes the command fail *)
  redis_data : gmap string Entry
}.

Record OpenSearch := {
  os_up : bool;
  os_docs : gmap string DocumentIndex
}.

Record World := {
  clock : Z;                         (* Date.now() *)
  redis : Redis;
  opensearch : OpenSearch;
  logs : list LogEntry;              (* oldest first *)
  metrics : list Metric;
  entropy : list string              (* what Math.random() will yield, as the
                                        base-36 digits generateDocId keeps *)
}.

Definition set_redis (r : Redis) (w : World) : World :=
  {| clock := clock w; redis := r; opensearch := opensearch w;
     logs := logs w; metrics := metrics w; entropy := entropy w |}.

Definition set_opensearch (o : OpenSearch) (w : World) : World :=
  {| clock := clock w; redis := redis w; opensearch := o;
     logs := logs w; metrics := metrics w; entropy := entropy w |}.

Definition set_clock (t : Z) (w : World) : World :=
  {| clock := t; redis := redis w; opensearch := opensearch w;
     logs := logs w; metrics := metrics w; entropy := entropy w |}.

(** ** Promises that may reject: a state and exception monad

    An [await]ed call either yields a value or throws; in both cases the
    effects it had on the world stay. *)

Inductive result (A : Type) :=
| Ok (a : A)
| Throw (e : error).
Arguments Ok {A} a.
Arguments Throw {A} e.

Definition M (A : Type) : Type := World -> result A * World.

Definition ret {A} (a : A) : M A := fun w => (Ok a, w).

Definition throw {A} (e : error) : M A := fun w => (Throw e, w).

Definition bind {A B} (m : M A) (k : A -> M B) : M B :=
  fun w =>
    match m w with
    | (Ok a, w') => k a w'
    | (Throw e, w') => (Throw e, w')
    end.

Definition try_catch {A} (m : M A) (handler : error -> M A) : M A :=
  fun w =>
    match m w with
    | (Ok a, w') => (Ok a, w')
    | (Throw e, w') => handler e w'
    end.

Notation "'do' x <- m ; k" := (bind m (fun x => k))
  (at level 10, x name, m at level 100, k at level 200, only parsing).
Notation "'run' m ; k" := (bind m (fun _ => k))
  (at level 10, m at level 100, k at level 200, only parsing).

Definition Date_now : M Z := fun w => (Ok (clock w), w).

Module logger.

Definition log (l : Level) (m : string) : M unit :=
  fun w =>
    (Ok tt, {| clock := clock w; redis := redis w; opensearch := opensearch w;
               logs := logs w ++ [ {| level := l; msg := m |} ];
               metrics := metrics w; entropy := entropy w |}).

Definition debug := log Debug.
Definition info := log Info.
Definition warn := log Warn.
Definition error := log Error.

End logger.

Module metricsService.

Definition record (m : Metric) : M unit :=
  fun w =>
    (Ok tt, {| clock := clock w; redis := redis w; opensearch := opensearch w;
               logs := logs w; metrics := metrics w ++ [m];
               entropy := entropy w |}).

Definition recordCacheHit (cacheType : string) : M unit :=
  record (CacheHit cacheType).

Definition recordCacheMiss (cacheType : string) : M unit :=
  record (CacheMiss cacheType).

End metricsService.

(** ** The Redis client (ioredis) *)

Module ioredis.

(** An entry is visible until its expiry instant. *)
Definition live (now : Z) (e : Entry) : bool :=
  match e_expireAt e with
  | Some t => now <? t
  | None => true
  end.

Definition visible (now : Z) (d : gmap string Entry) (key : string)
  : option value :=
  match d !! key with
  | Some e => if live now e then Some (e_value e) else None
  | None => None
  end.

Definition connection_error : error :=
  ClientError None "Connection is closed.".

(** Whether the coming command fails: as the schedule of faults says, and
    when the schedule is empty, if the server cannot be reached. *)
Definition fails (r : Redis) : bool :=
  match redis_faults r with
  | b :: _ => b
  | [] => negb (redis_up r)
  end.

(** A command either fails or runs against the key space at the current
    instant; in both cases it uses up one entry of the schedule. *)
Definition command {A}
    (f : Z -> gmap string Entry -> result A * gmap string Entry) : M A :=
  fun w =>
    let r := redis w in
    if fails r then
      (Throw connection_error,
       set_redis {| redis_up := redis_up r;
                    redis_faults := List.tl (redis_faults r);
                    redis_data := redis_data r |} w)
    else
      let '(x, d) := f (clock w) (redis_data r) in
      (x, set_redis {| redis_up := redis_up r;
                       redis_faults := List.tl (redis_faults r);
                       redis_data := d |} w).

Definition get (key : string) : M (option value) :=
  command (fun now d => (Ok (visible now d key), d)).

Definition set (key : string) (v : value) : M unit :=
  command (fun _ d =>
    (Ok tt, <[key := {| e_value := v; e_expireAt := None |}]> d)).

Definition setex (key : string) (seconds : Z) (v : value) : M unit :=
  command (fun now d =>
    if seconds <=? 0 then
      (Throw (ClientError None "ERR invalid expire time in 'setex' command"), d)
    else
      (Ok tt, <[key := {| e_value := v;
                          e_expireAt := Some (now + 1000 * seconds) |}]> d)).

(** [DEL k1 k2 ...]: removes the keys and counts those that were there. *)
Fixpoint del_keys (now : Z) (keys : list string) (d : gmap string Entry)
  : Z * gmap string Entry :=
  match keys with
  | [] => (0, d)
  | k :: ks =>
      let n := match visible now d k with Some _ => 1 | None => 0 end in
      let '(m, d') := del_keys now ks (delete k d) in
      (n + m, d')
  end.

Definition del (keys : list string) : M Z :=
  command (fun now d => let '(n, d') := del_keys now keys d in (Ok n, d')).

(** Glob matching of [KEYS]: [*], [?], a backslash escape, and literal
    characters. Bracket classes are left out: no pattern built by the
    services has one. *)
Fixpoint glob (p s : string) : bool :=
  match p with
  | EmptyString => negb (Js.truthy_str s)
  | String "*" p' =>
      (fix star (s : string) : bool :=
         glob p' s ||
         match s with
         | EmptyString => false
         | String _ s' => star s'
         end) s
  | String "?" p' =>
      match s with
      | EmptyString => false
      | String _ s' => glob p' s'
      end
  | String "\" (String c p') =>
      match s with
      | EmptyString => false
      | String d s' => Ascii.eqb c d && glob p' s'
      end
  | String c p' =>
      match s with
      | EmptyString => false
      | String d s' => Ascii.eqb c d && glob p' s'
      end
  end.

Definition matching (now : Z) (pattern : string) (d : gmap string Entry)
  : list string :=
  List.filter
    (fun k => glob pattern k &&
              match visible now d k with
              | Some _ => true
              | None => false
              end)
    (map_to_list d).*1.

Definition keys (pattern : string) : M (list string) :=
  command (fun now d => (Ok (matching now pattern d), d)).

(** [EXISTS key]: how many of the keys are there, for one key. *)
Definition exists_ (key : string) : M Z :=
  command (fun now d =>
    (Ok (match visible now d key with Some _ => 1 | None => 0 end), d)).

(** [PING] *)
Definition ping : M string :=
  command (fun _ d => (Ok "PONG", d)).

End ioredis.

(** ** utils/hash.ts *)

(** SHA-256 on bytes, as [crypto.createHash('sha256')] computes it. Words are
    32-bit integers in [Z], with the wrap-around written out. *)
Module sha256.

Definition mask32 (x : Z) : Z := Z.land x 0xFFFFFFFF.
Definition add32 (a b : Z) : Z := mask32 (a + b).
Definition rotr (n x : Z) : Z :=
  Z.lor (Z.shiftr x n) (mask32 (Z.shiftl x (32 - n))).
Definition not32 (x : Z) : Z := Z.lxor x 0xFFFFFFFF.

Definition Ch (x y z : Z) : Z := Z.lxor (Z.land x y) (Z.land (not32 x) z).
Definition Maj (x y z : Z) : Z :=
  Z.lxor (Z.lxor (Z.land x y) (Z.land x z)) (Z.land y z).
Definition Sigma0 (x : Z) : Z :=
  Z.lxor (Z.lxor (rotr 2 x) (rotr 13 x)) (rotr 22 x).
Definition Sigma1 (x : Z) : Z :=
  Z.lxor (Z.lxor (rotr 6 x) (rotr 11 x)) (rotr 25 x).
Definition sigma0 (x : Z) : Z :=
  Z.lxor (Z.lxor (rotr 7 x) (rotr 18 x)) (Z.shiftr x 3).
Definition sigma1 (x : Z) : Z :=
  Z.lxor (Z.lxor (rotr 17 x) (rotr 19 x)) (Z.shiftr x 10).

(** Primality by trial division, and the first [n] primes. *)
Definition is_prime (p : Z) : bool :=
  (2 <=? p) &&
  List.forallb (fun d => negb (p mod d =? 0) || (p <=? d))
    (List.map Z.of_nat (List.seq 2 (Z.to_nat (Z.sqrt p)))).

Definition primes (n : nat) : list Z :=
  List.firstn n (List.filter is_prime (List.map Z.of_nat (List.seq 2 310))).

(** The largest [x] below [2^bits] with [x^3 <= n]. *)
Fixpoint cube_root (bits : nat) (n x : Z) : Z :=
  match bits with
  | O => x
  | S b =>
      let y := x + Z.shiftl 1 (Z.of_nat b) in
      cube_root b n (if y * y * y <=? n then y else x)
  end.

(** The round constants: the first 32 bits of the fractional parts of the
    cube roots of the first 64 primes. *)
Definition K : list Z :=
  Eval vm_compute in
    List.map (fun p => mask32 (cube_root 36 (p * 2 ^ 96) 0)) (primes 64).

(** The initial hash value: the same of the square roots of the first 8
    primes. *)
Definition H0 : list Z :=
  Eval vm_compute in
    List.map (fun p => mask32 (Z.sqrt (p * 2 ^ 64))) (primes 8).

(** Big-endian bytes of [x], [n] of them. *)
Fixpoint be_bytes (n : nat) (x : Z) : list Z :=
  match n with
  | O => []
  | S n' => Z.land (Z.shiftr x (8 * Z.of_nat n')) 0xFF :: be_bytes n' x
  end.

(** The message followed by the bit 1, zeros up to 56 modulo 64, and the
    bit length on 8 bytes. *)
Definition pad (msg : list Z) : list Z :=
  let len := Z.of_nat (List.length msg) in
  msg ++ [0x80] ++ List.repeat 0 (Z.to_nat ((55 - len) mod 64))
      ++ be_bytes 8 (8 * len).

Fixpoint words (fuel : nat) (bytes : list Z) : list Z :=
  match fuel, bytes with
  | S fuel', b0 :: b1 :: b2 :: b3 :: rest =>
      (b0 * 16777216 + b1 * 65536 + b2 * 256 + b3) :: words fuel' rest
  | _, _ => []
  end.

(** The message schedule, newest word first. *)
Fixpoint extend (n : nat) (rw : list Z) : list Z :=
  match n with
  | O => rw
  | S n' =>
      let w2 := List.nth 1 rw 0 in
      let w7 := List.nth 6 rw 0 in
      let w15 := List.nth 14 rw 0 in
      let w16 := List.nth 15 rw 0 in
      extend n' (add32 (add32 (sigma1 w2) w7) (add32 (sigma0 w15) w16) :: rw)
  end.

Definition schedule (block : list Z) : list Z :=
  List.rev (extend 48 (List.rev block)).

Record regs := Regs { ra : Z; rb : Z; rc : Z; rd : Z;
                      re : Z; rf : Z; rg : Z; rh : Z }.

Definition round (s : regs) (kw : Z * Z) : regs :=
  let t1 := add32 (add32 (add32 (rh s) (Sigma1 (re s)))
                         (add32 (Ch (re s) (rf s) (rg s)) (fst kw))) (snd kw) in
  let t2 := add32 (Sigma0 (ra s)) (Maj (ra s) (rb s) (rc s)) in
  Regs (add32 t1 t2) (ra s) (rb s) (rc s) (add32 (rd s) t1) (re s) (rf s) (rg s).

Definition compress (h : regs) (block : list Z) : regs :=
  let s := List.fold_left round (List.combine K (schedule block)) h in
  Regs (add32 (ra h) (ra s)) (add32 (rb h) (rb s))
       (add32 (rc h) (rc s)) (add32 (rd h) (rd s))
       (add32 (re h) (re s)) (add32 (rf h) (rf s))
       (add32 (rg h) (rg s)) (add32 (rh h) (rh s)).

Fixpoint blocks (fuel : nat) (h : regs) (ws : list Z) : regs :=
  match fuel with
  | O => h
  | S fuel' =>
      match ws with
      | [] => h
      | _ => blocks fuel' (compress h (List.firstn 16 ws)) (List.skipn 16 ws)
      end
  end.

Definition init : regs :=
  Regs (List.nth 0 H0 0) (List.nth 1 H0 0) (List.nth 2 H0 0) (List.nth 3 H0 0)
       (List.nth 4 H0 0) (List.nth 5 H0 0) (List.nth 6 H0 0) (List.nth 7 H0 0).

Definition digest_words (msg : list Z) : list Z :=
  let p := pad msg in
  let ws := words (List.length p) p in
  let h := blocks (List.length ws) init ws in
  [ra h; rb h; rc h; rd h; re h; rf h; rg h; rh h].

Definition hex_digit (n : Z) : ascii :=
  match String.get (Z.to_nat n) "0123456789abcdef" with
  | Some c => c
  | None => "0"%char
  end.

Fixpoint hex (digits : nat) (x : Z) : string :=
  match digits with
  | O => EmptyString
  | S d => String (hex_digit (Z.land (Z.shiftr x (4 * Z.of_nat d)) 0xF)) (hex d x)
  end.

(** [.digest('hex')] *)
Definition digest_hex (msg : list Z) : string :=
  List.fold_right (fun w acc => hex 8 w +:+ acc) EmptyString (digest_words msg).

End sha256.

Module hash.

(** UTF-8 bytes of a string of code units below 256, which is what
    [Hash.update] feeds to the digest for a string argument. *)
Fixpoint utf8 (s : string) : list Z :=
  match s with
  | EmptyString => []
  | String c s' =>
      let n := Z.of_nat (nat_of_ascii c) in
      if n <? 128 then n :: utf8 s'
      else (192 + Z.shiftr n 6) :: (128 + Z.land n 63) :: utf8 s'
  end.

Definition hashString (input : string) : string :=
  sha256.digest_hex (utf8 input).

(** A property value of the filter object: a string, an integer number,
    or [undefined] ([None]), which [JSON.stringify] leaves out. *)
Inductive prim :=
| PStr (s : string)
| PNum (n : Z).

Definition dquote : string := String (ascii_of_nat 34) EmptyString.
Definition backslash : string := String (ascii_of_nat 92) EmptyString.

(** QuoteJSONString: the short escapes, [\u00xx] for the other control
    characters, everything else as it is. *)
Definition escape_char (c : ascii) : string :=
  let n := nat_of_ascii c in
  if (n =? 8)%nat then backslash +:+ "b"
  else if (n =? 9)%nat then backslash +:+ "t"
  else if (n =? 10)%nat then backslash +:+ "n"
  else if (n =? 12)%nat then backslash +:+ "f"
  else if (n =? 13)%nat then backslash +:+ "r"
  else if (n =? 34)%nat then backslash +:+ dquote
  else if (n =? 92)%nat then backslash +:+ backslash
  else if (n <? 32)%nat then backslash +:+ "u00" +:+ sha256.hex 2 (Z.of_nat n)
  else String c EmptyString.

Fixpoint escape (s : string) : string :=
  match s with
  | EmptyString => EmptyString
  | String c s' => escape_char c +:+ escape s'
  end.

Definition quoted (s : string) : string := dquote +:+ escape s +:+ dquote.

Definition stringify_prim (p : prim) : string :=
  match p with
  | PStr s => quoted s
  | PNum n => Js.toString n
  end.

(** The members of an object in own-property order, without the
    [undefined] ones. *)
Fixpoint members (props : list (string * option prim)) : list string :=
  match props with
  | [] => []
  | (k, Some v) :: rest => (quoted k +:+ ":" +:+ stringify_prim v) :: members rest
  | (_, None) :: rest => members rest
  end.

Definition stringify_object (props : list (string * option prim)) : string :=
  "{" +:+ String.concat "," (members props) +:+ "}".

(** [JSON.stringify({ query, filters })] then [hashString]. *)
Definition hashQuery (query : string) (filters : list (string * option prim))
  : string :=
  let combined :=
    "{" +:+ quoted "query" +:+ ":" +:+ quoted query +:+ ","
        +:+ quoted "filters" +:+ ":" +:+ stringify_object filters +:+ "}" in
  hashString combined.

End hash.

(** ** config/index.ts *)

Record Config := {
  rateLimit_windowMs : Z;
  rateLimit_maxRequests : Z;
  cache_ttlSeconds : Z;
  cache_searchTtlSeconds : Z
}.

(** The values taken when the environment sets none. *)
Definition default_config : Config :=
  {| rateLimit_windowMs := 60000;
     rateLimit_maxRequests := 100;
     cache_ttlSeconds := 60;
     cache_searchTtlSeconds := 120 |}.

(** ** services/redis.service.ts *)

Module RedisService.

Definition get (key : string) : M (option value) :=
  try_catch
    (do v <- ioredis.get key;
     ret v)
    (fun _ =>
       run logger.error "Redis get error";
       ret None).

Definition set (key : string) (v : value) (ttlSeconds : option Z) : M bool :=
  try_catch
    (run (match ttlSeconds with
          | Some ttl => if ttl =? 0 then ioredis.set key v
                        else ioredis.setex key ttl v
          | None => ioredis.set key v
          end);
     ret true)
    (fun _ =>
       run logger.error "Redis set error";
       ret false).

Definition del (key : string) : M bool :=
  try_catch
    (run ioredis.del [key];
     ret true)
    (fun _ =>
       run logger.error "Redis delete error";
       ret false).

Definition delPattern (pattern : string) : M Z :=
  try_catch
    (do keys <- ioredis.keys pattern;
     match keys with
     | [] => ret 0
     | _ => ioredis.del keys
     end)
    (fun _ =>
       run logger.error "Redis delete pattern error";
       ret 0).

Definition exists_ (key : string) : M bool :=
  try_catch
    (do result <- ioredis.exists_ key;
     ret (result =? 1))
    (fun _ =>
       run logger.error "Redis exists error";
       ret false).

Definition ping : M bool :=
  try_catch
    (do result <- ioredis.ping;
     ret (String.eqb result "PONG"))
    (fun _ => ret false).

End RedisService.

(** ** services/cache.service.ts *)

(** The filter object the search route passes to the cache. *)
Record Filters := {
  f_tag : option string;
  f_author : option string;
  f_from : option string;
  f_to : option string
}.

Module CacheService.

Import hash.

(** The properties of [{ ...filters, offset, limit }] in order. *)
Definition spread (filters : Filters) (offset limit : Z)
  : list (string * option prim) :=
  [ ("tag", PStr <$> f_tag filters);
    ("author", PStr <$> f_author filters);
    ("from", PStr <$> f_from filters);
    ("to", PStr <$> f_to filters);
    ("offset", Some (PNum offset));
    ("limit", Some (PNum limit)) ].

Definition getSearchKey (tenantId query : string) (filters : Filters)
    (offset limit : Z) : string :=
  let queryHash := hashQuery query (spread filters offset limit) in
  "search:" +:+ tenantId +:+ ":" +:+ queryHash.

Definition getDocumentKey (tenantId docId : string) : string :=
  "doc:" +:+ tenantId +:+ ":" +:+ docId.

(** Truthiness of what the cache gave back. *)
Definition truthy (o : option value) : bool :=
  match o with
  | Some (VNum n) => negb (n =? 0)
  | Some _ => true
  | None => false
  end.

Section WithConfig.

Variable config : Config.

Definition getSearchResult (tenantId query : string) (filters : Filters)
    (offset limit : Z) : M (option value) :=
  let key := getSearchKey tenantId query filters offset limit in
  do cached <- RedisService.get key;
  run (if truthy cached then
         run logger.debug "Cache hit for search";
         metricsService.recordCacheHit "search"
       else metricsService.recordCacheMiss "search");
  ret cached.

Definition setSearchResult (tenantId query : string) (filters : Filters)
    (offset limit : Z) (result : SearchResponse) : M unit :=
  let key := getSearchKey tenantId query filters offset limit in
  run RedisService.set key (VSearch result)
        (Some (cache_searchTtlSeconds config));
  logger.debug "Cached search result".

Definition getDocument (tenantId docId : string) : M (option value) :=
  let key := getDocumentKey tenantId docId in
  do cached <- RedisService.get key;
  run (if truthy cached then
         run logger.debug "Cache hit for document";
         metricsService.recordCacheHit "document"
       else metricsService.recordCacheMiss "document");
  ret cached.

Definition setDocument (tenantId docId : string) (document : Document)
  : M unit :=
  let key := getDocumentKey tenantId docId in
  run RedisService.set key (VDoc document) (Some (cache_ttlSeconds config));
  logger.debug "Cached document".

Definition invalidateDocument (tenantId docId : string) : M unit :=
  let key := getDocumentKey tenantId docId in
  run RedisService.del key;
  logger.debug "Invalidated document cache".

Definition invalidateTenantSearches (tenantId : string) : M unit :=
  let pattern := "search:" +:+ tenantId +:+ ":*" in
  do deleted <- RedisService.delPattern pattern;
  logger.debug "Invalidated tenant search cache".

End WithConfig.

End CacheService.

(** ** The index engine client *)

Module opensearch_client.

Definition connection_error : error :=
  ClientError None "connect ECONNREFUSED".

Definition not_found : error :=
  ClientError (Some 404) "Response Error".

Definition request {A}
    (f : gmap string DocumentIndex ->
         result A * gmap string DocumentIndex) : M A :=
  fun w =>
    if os_up (opensearch w) then
      let '(r, d) := f (os_docs (opensearch w)) in
      (r, set_opensearch {| os_up := true; os_docs := d |} w)
    else (Throw connection_error, w).

(** [client.index({ id, body, refresh: true })]: creates or replaces. *)
Definition index (id : string) (body : DocumentIndex) : M unit :=
  request (fun d => (Ok tt, <[id := body]> d)).

(** [client.get({ id })]: rejects with status 404 when the id is free. *)
Definition get (id : string) : M DocumentIndex :=
  request (fun d =>
    match d !! id with
    | Some src => (Ok src, d)
    | None => (Throw not_found, d)
    end).

(** [client.delete({ id, refresh: true })] *)
Definition delete (id : string) : M unit :=
  request (fun d =>
    match d !! id with
    | Some _ => (Ok tt, delete id d)
    | None => (Throw not_found, d)
    end).

(** [client.cluster.health()], answering the status the cluster is in:
    green, yellow or red. *)
Definition cluster_health (status : string) : M string :=
  request (fun d => (Ok status, d)).

Section WithEngine.

(** How the engine evaluates a plan on its index: ranking and
    highlighting are the engine's own. *)
Variable engine : gmap string DocumentIndex -> SearchBody -> SearchHits.

Definition search (body : SearchBody) : M SearchHits :=
  request (fun d => (Ok (engine d body), d)).

End WithEngine.

End opensearch_client.

(** ** services/opensearch.service.ts *)

Module OpenSearchService.

Definition generateDocId : M string :=
  fun w =>
    let suffix := List.hd EmptyString (entropy w) in
    (Ok ("doc_" +:+ Js.toString (clock w) +:+ "_" +:+ suffix),
     {| clock := clock w; redis := redis w; opensearch := opensearch w;
        logs := logs w; metrics := metrics w;
        entropy := List.tl (entropy w) |}).

(** The id under which a tenant's document is stored in the index. *)
Definition index_id (tenantId docId : string) : string :=
  tenantId +:+ "_" +:+ docId.

Definition mapIndexToDocument (source : DocumentIndex) : Document :=
  {| doc_id_opt := Some (doc_id source);
     doc_tenantId := tenant_id source;
     doc_title := ix_title source;
     doc_content := ix_content source;
     doc_tags := ix_tags source;
     doc_metadata := ix_metadata source;
     doc_createdAt := Some (created_at source);
     doc_updatedAt := Some (updated_at source) |}.

Definition indexDocument (tenantId : string) (document : Document) : M unit :=
  try_catch
    (do ms <- Date_now;
     let now := Js.toISOString ms in
     do docId <- (if Js.truthy_ostr (doc_id_opt document)
                  then ret (Js.str_or (doc_id_opt document) EmptyString)
                  else generateDocId);
     let indexDoc :=
       {| tenant_id := tenantId;
          doc_id := docId;
          ix_title := doc_title document;
          ix_content := doc_content document;
          ix_tags := Some (default [] (doc_tags document));
          ix_metadata :=
            Some (default {| md_author := None; md_type := None;
                             md_department := None |}
                          (doc_metadata document));
          created_at := Js.str_or (doc_createdAt document) now;
          updated_at := Js.str_or (doc_updatedAt document) now |} in
     run opensearch_client.index (index_id tenantId docId) indexDoc;
     logger.info "Document indexed")
    (fun error =>
       run logger.error "Failed to index document";
       throw error).

Definition getDocument (tenantId docId : string) : M (option Document) :=
  try_catch
    (do source <- opensearch_client.get (index_id tenantId docId);
     (* Verify tenant_id matches *)
     if negb (String.eqb (tenant_id source) tenantId) then
       run logger.warn "Tenant mismatch on document retrieval";
       ret None
     else ret (Some (mapIndexToDocument source)))
    (fun error =>
       match error with
       | ClientError (Some 404) _ => ret None
       | AppError 404 _ => ret None
       | _ =>
           run logger.error "Failed to get document";
           throw error
       end).

Definition deleteDocument (tenantId docId : string) : M bool :=
  try_catch
    (run opensearch_client.delete (index_id tenantId docId);
     run logger.info "Document deleted";
     ret true)
    (fun error =>
       match error with
       | ClientError (Some 404) _ | AppError 404 _ =>
           run logger.debug "Document not found for deletion";
           ret false
       | _ =>
           run logger.error "Failed to delete document";
           throw error
       end).

(** The clauses and paging of [search], up to the call of the client. *)
Definition searchBody (tenantId : string) (query : SearchQuery) : SearchBody :=
  let offset := Js.num_or (sq_offset query) 0 in
  let limit := Z.min (Js.num_or (sq_limit query) 10) 50 in
  (* Tenant filter (mandatory) *)
  let filterClauses := [Term "tenant_id" tenantId] in
  (* Full-text search query *)
  let mustClauses :=
    if Js.truthy_str (q query) && Js.truthy_str (Js.trim (q query)) then
      [BoolShould
         [MultiMatch (q query) ["title^3"; "content"; "tags^2"]
                     "best_fields" "or"]]
    else
      (* If no query, match all (still filtered by tenant) *)
      [MatchAll] in
  (* Additional filters *)
  let filterClauses :=
    if Js.truthy_ostr (sq_tag query)
    then (filterClauses ++
          [Term "tags" (Js.str_or (sq_tag query) EmptyString)])%list
    else filterClauses in
  let filterClauses :=
    if Js.truthy_ostr (sq_author query)
    then (filterClauses ++
          [Term "metadata.author"
                (Js.str_or (sq_author query) EmptyString)])%list
    else filterClauses in
  let filterClauses :=
    if Js.truthy_ostr (sq_from query) || Js.truthy_ostr (sq_to query) then
      let gte := if Js.truthy_ostr (sq_from query) then sq_from query else None in
      let lte := if Js.truthy_ostr (sq_to query) then sq_to query else None in
      (filterClauses ++ [Range "created_at" gte lte])%list
    else filterClauses in
  {| must := mustClauses;
     filter := filterClauses;
     from := offset;
     size := limit;
     _source := ["doc_id"; "title"; "content"; "tags"; "metadata"];
     highlight :=
       [ {| hl_field := "title"; hl_fragment_size := None;
            hl_number_of_fragments := None |};
         {| hl_field := "content"; hl_fragment_size := Some 150;
            hl_number_of_fragments := Some 1 |} ] |}.

(** Use the highlighted snippet if there is one, otherwise truncate the
    content. *)
Definition snippet (h : Hit) : string :=
  let source := hit_source h in
  let highlight :=
    default {| hh_content := None; hh_title := None |} (hit_highlight h) in
  match hh_content highlight with
  | Some (c :: _) => c
  | _ =>
      match hh_title highlight with
      | Some (t :: _) => t
      | _ =>
          Js.prefix 150 (hs_content source) +:+
          (if (150 <? String.length (hs_content source))%nat
           then "..." else EmptyString)
      end
  end.

Definition mapHit (h : Hit) : SearchResult :=
  {| sr_id := hs_doc_id (hit_source h);
     sr_title := hs_title (hit_source h);
     sr_snippet := snippet h;
     sr_score := hit_score h;
     sr_tags := default [] (hs_tags (hit_source h)) |}.

Section WithEngine.

Variable engine : gmap string DocumentIndex -> SearchBody -> SearchHits.

Definition search (tenantId : string) (query : SearchQuery)
  : M (list SearchResult * Z) :=
  try_catch
    (do response <-
       opensearch_client.search engine (searchBody tenantId query);
     let hits := default [] (hits response) in
     let total := total_value response in
     let results := List.map mapHit hits in
     ret (results, total))
    (fun error =>
       run logger.error "Search failed";
       throw error).

End WithEngine.

(** [healthCheck], for the status the cluster is in. *)
Definition healthCheck (cluster_status : string) : M bool :=
  try_catch
    (do status <- opensearch_client.cluster_health cluster_status;
     ret (negb (String.eqb status "red")))
    (fun _ =>
       run logger.error "OpenSearch health check failed";
       ret false).

End OpenSearchService.

(** ** The HTTP layer: what a handler leaves behind *)

Inductive body :=
| BJson (v : value)                               (* res.json(cached) *)
| BStatus (id tenantId status : string)           (* { id, tenantId, status } *)
| BError (error : string).                        (* { error } *)

(** A route handler either sends a response or hands an error to [next]. *)
Inductive reply :=
| Sent (status : Z) (b : body)
| Next (e : error).

Definition headers := list (string * string).

(** A middleware sets headers and calls [next()] or [next(error)]. *)
Inductive passed :=
| NextOk
| NextError (e : error)
| NotANumber.      (* the counter key holds something else than a number:
                      JavaScript's coercions there are left out of the model *)

Record Response := {
  status : Z;
  response_headers : headers;
  response_body : body
}.

(** ** middleware/errorHandler.ts *)

Definition errorHandler (err : error) : M (Z * body) :=
  match err with
  | AppError statusCode message =>
      run logger.error "Application error";
      ret (statusCode, BError message)
  | ClientError _ _ =>
      run logger.error "Unhandled error";
      ret (500, BError "Internal server error")
  end.

(** ** middleware/tenant.ts *)

Module tenant.

(** One character of [/^[a-zA-Z0-9_-]+$/]. *)
Definition tenant_char (c : ascii) : bool :=
  let n := nat_of_ascii c in
  ((97 <=? n) && (n <=? 122) || (65 <=? n) && (n <=? 90) ||
   (48 <=? n) && (n <=? 57) || (n =? 95) || (n =? 45))%nat.

Fixpoint all_tenant_chars (s : string) : bool :=
  match s with
  | EmptyString => true
  | String c s' => tenant_char c && all_tenant_chars s'
  end.

(** [TenantIdSchema.safeParse(tenantId).success] *)
Definition TenantIdSchema (s : string) : bool :=
  (1 <=? String.length s)%nat && (String.length s <=? 100)%nat &&
  all_tenant_chars s.

(** Yields the request context, or the response sent in its place. *)
Definition extractTenantId (header : option string)
  : M (string + Z * body) :=
  if negb (Js.truthy_ostr header) then
    run logger.warn "Missing X-Tenant-Id header";
    ret (inr (400, BError "Missing required header: X-Tenant-Id"))
  else
    let tenantId := Js.str_or header EmptyString in
    if negb (TenantIdSchema tenantId) then
      run logger.warn "Invalid tenant ID format";
      ret (inr (400, BError "Invalid tenant ID format. Must be alphanumeric with hyphens/underscores."))
    else ret (inl tenantId).

End tenant.

(** ** middleware/rateLimiter.ts *)

Module rateLimiter.

Section WithConfig.

Variable config : Config.

Definition windowStart (now : Z) : Z :=
  (now / rateLimit_windowMs config) * rateLimit_windowMs config.

Definition countKey (tenantId : string) (now : Z) : string :=
  let key := "ratelimit:" +:+ tenantId in
  key +:+ ":" +:+ Js.toString (windowStart now).

Definition exceeded_message (retryAfter : Z) : string :=
  "Rate limit exceeded. Maximum " +:+
  Js.toString (rateLimit_maxRequests config) +:+ " requests per " +:+
  Js.seconds_of_ms (rateLimit_windowMs config) +:+
  " seconds. Retry after " +:+ Js.toString retryAfter +:+ " seconds.".

(** What [next] is called with, and the headers set before. *)
Definition rateLimiter (context : option string) : M (headers * passed) :=
  if negb (Js.truthy_ostr context) then
    (* If no tenant ID, skip rate limiting *)
    ret ([], NextOk)
  else
    let tenantId := Js.str_or context EmptyString in
    try_catch
      (let windowMs := rateLimit_windowMs config in
       let maxRequests := rateLimit_maxRequests config in
       do now <- Date_now;
       let resetTime := windowStart now + windowMs in
       (* Get current count *)
       do stored <- RedisService.get (countKey tenantId now);
       match stored with
       | Some (VDoc _) | Some (VSearch _) => ret ([], NotANumber)
       | _ =>
           let currentCount :=
             match stored with Some (VNum n) => n | _ => 0 end in
           if maxRequests <=? currentCount then
             let retryAfter := Js.ceil_div (resetTime - now) 1000 in
             run logger.warn "Rate limit exceeded";
             ret ([ ("X-RateLimit-Limit", Js.toString maxRequests);
                    ("X-RateLimit-Remaining", "0");
                    ("X-RateLimit-Reset", Js.toISOString resetTime);
                    ("Retry-After", Js.toString retryAfter) ],
                  NextError (AppError 429 (exceeded_message retryAfter)))
           else
             (* Increment counter *)
             let newCount := currentCount + 1 in
             run RedisService.set (countKey tenantId now) (VNum newCount)
                   (Some (Js.ceil_div windowMs 1000));
             ret ([ ("X-RateLimit-Limit", Js.toString maxRequests);
                    ("X-RateLimit-Remaining",
                     Js.toString (Z.max 0 (maxRequests - newCount)));
                    ("X-RateLimit-Reset", Js.toISOString resetTime) ],
                  NextOk)
       end)
      (fun error =>
         (* If Redis fails, log but allow request (fail open) *)
         run logger.error "Rate limiter error";
         ret ([], NextOk)).

End WithConfig.

End rateLimiter.

(** ** routes/search.routes.ts *)

(** The query string as the router parses it: each parameter is absent or a
    string. *)
Record RawQuery := {
  raw_q : option string;
  raw_offset : option string;
  raw_limit : option string;
  raw_tag : option string;
  raw_author : option string;
  raw_from : option string;
  raw_to : option string
}.

(** What [SearchQuerySchema] yields on success. *)
Record ParsedQuery := {
  p_q : option string;
  p_offset : option Z;
  p_limit : option Z;
  p_tag : option string;
  p_author : option string;
  p_from : option string;
  p_to : option string
}.

Module SearchRoutes.

(** [z.string().regex(/^\d+$/).transform(Number).optional()]: the outer
    option is the success of the check. *)
Definition digits (o : option string) : option (option Z) :=
  match o with
  | None => Some None
  | Some s => if Js.digits_only s then Some (Some (Js.Number s)) else None
  end.

(** [z.string().min(1).optional()] *)
Definition nonempty (o : option string) : option (option string) :=
  match o with
  | None => Some None
  | Some s => if (1 <=? String.length s)%nat then Some (Some s) else None
  end.

(** [SearchQuerySchema.safeParse(req.query)]; [None] when it fails. *)
Definition SearchQuerySchema (raw : RawQuery) : option ParsedQuery :=
  match nonempty (raw_q raw), digits (raw_offset raw), digits (raw_limit raw) with
  | Some pq, Some po, Some pl =>
      Some {| p_q := pq; p_offset := po; p_limit := pl;
              p_tag := raw_tag raw; p_author := raw_author raw;
              p_from := raw_from raw; p_to := raw_to raw |}
  | _, _, _ => None
  end.

(** The query object of the handler, after the limit is capped. *)
Definition buildQuery (data : ParsedQuery) : SearchQuery :=
  let limit := Js.num_or (p_limit data) 10 in
  {| q := Js.str_or (p_q data) EmptyString;
     sq_offset := Some (Js.num_or (p_offset data) 0);
     sq_limit := Some (if negb (limit =? 0) && (50 <? limit) then 50 else limit);
     sq_tag := p_tag data;
     sq_author := p_author data;
     sq_from := p_from data;
     sq_to := p_to data |}.

Definition filtersOf (query : SearchQuery) : Filters :=
  {| f_tag := sq_tag query; f_author := sq_author query;
     f_from := sq_from query; f_to := sq_to query |}.

(** zod's message lists the issues; the text kept here is a summary. *)
Definition validation_message : string :=
  "Invalid query parameters: invalid input".

Section WithDeps.

Variable config : Config.
Variable engine : gmap string DocumentIndex -> SearchBody -> SearchHits.

(** [router.get('/')] *)
Definition get (context : option string) (raw : RawQuery) : M reply :=
  try_catch
    (if negb (Js.truthy_ostr context) then
       throw (AppError 400 "Tenant ID is required")
     else
       let tenantId := Js.str_or context EmptyString in
       match SearchQuerySchema raw with
       | None => throw (AppError 400 validation_message)
       | Some data =>
           let query := buildQuery data in
           let text := Js.str_or (Some (q query)) EmptyString in
           let offset := Js.num_or (sq_offset query) 0 in
           let limit := Js.num_or (sq_limit query) 10 in
           (* Check cache *)
           do cached <-
             CacheService.getSearchResult tenantId text (filtersOf query)
               offset limit;
           let perform : M reply :=
             (* Perform search *)
             do found <- OpenSearchService.search engine tenantId query;
             let response :=
               {| resp_tenantId := tenantId;
                  resp_query := text;
                  resp_offset := offset;
                  resp_limit := limit;
                  resp_total := snd found;
                  resp_results := fst found |} in
             (* Cache the result *)
             run CacheService.setSearchResult config tenantId text
                   (filtersOf query) offset limit response;
             run logger.info "Search performed";
             ret (Sent 200 (BJson (VSearch response))) in
           match cached with
           | Some v =>
               if CacheService.truthy cached then ret (Sent 200 (BJson v))
               else perform
           | None => perform
           end
       end)
    (fun error => ret (Next error)).

End WithDeps.

End SearchRoutes.

(** ** routes/documents.routes.ts *)

(** The request body of a creation, as far as [DocumentSchema] reads it. *)
Record DocumentInput := {
  in_id : option string;
  in_title : option string;
  in_content : option string;
  in_tags : option (list string);
  in_metadata : option Metadata
}.

Module DocumentsRoutes.

Definition between (lo hi : Z) (s : string) : bool :=
  (lo <=? Z.of_nat (String.length s)) && (Z.of_nat (String.length s) <=? hi).

(** [DocumentSchema.safeParse(req.body).success] *)
Definition DocumentSchema (input : DocumentInput) : bool :=
  match in_title input, in_content input with
  | Some title, Some content => between 1 500 title && between 1 100000 content
  | _, _ => false
  end.

Definition validation_message : string :=
  "Validation error: invalid input".

Section WithConfig.

Variable config : Config.

(** [router.post('/')] *)
Definition post (context : option string) (input : DocumentInput)
  : M reply :=
  try_catch
    (if negb (Js.truthy_ostr context) then
       throw (AppError 400 "Tenant ID is required")
     else
       let tenantId := Js.str_or context EmptyString in
       if negb (DocumentSchema input) then
         throw (AppError 400 validation_message)
       else
         do created <- Date_now;
         do updated <- Date_now;
         let document :=
           {| doc_id_opt := in_id input;
              doc_tenantId := tenantId;
              doc_title := default EmptyString (in_title input);
              doc_content := default EmptyString (in_content input);
              doc_tags := in_tags input;
              doc_metadata := in_metadata input;
              doc_createdAt := Some (Js.toISOString created);
              doc_updatedAt := Some (Js.toISOString updated) |} in
         run OpenSearchService.indexDocument tenantId document;
         let docId := Js.str_or (doc_id_opt document) "generated" in
         (* Invalidate search cache for this tenant *)
         run CacheService.invalidateTenantSearches tenantId;
         run logger.info "Document created";
         ret (Sent 201 (BStatus docId tenantId "indexed")))
    (fun error => ret (Next error)).

(** [router.get('/:id')] *)
Definition get (context : option string) (docId : string) : M reply :=
  try_catch
    (if negb (Js.truthy_ostr context) then
       throw (AppError 400 "Tenant ID is required")
     else
       let tenantId := Js.str_or context EmptyString in
       (* Check cache first *)
       do cached <- CacheService.getDocument tenantId docId;
       let query : M reply :=
         (* Query OpenSearch *)
         do document <- OpenSearchService.getDocument tenantId docId;
         match document with
         | None => throw (AppError 404 "Document not found")
         | Some document =>
             (* Cache the result *)
             run CacheService.setDocument config tenantId docId document;
             ret (Sent 200 (BJson (VDoc document)))
         end in
       match cached with
       | Some v =>
           if CacheService.truthy cached then ret (Sent 200 (BJson v))
           else query
       | None => query
       end)
    (fun error => ret (Next error)).

(** [router.delete('/:id')] *)
Definition delete (context : option string) (docId : string) : M reply :=
  try_catch
    (if negb (Js.truthy_ostr context) then
       throw (AppError 400 "Tenant ID is required")
     else
       let tenantId := Js.str_or context EmptyString in
       do deleted <- OpenSearchService.deleteDocument tenantId docId;
       (* Invalidate cache *)
       run CacheService.invalidateDocument tenantId docId;
       run CacheService.invalidateTenantSearches tenantId;
       run logger.info "Document deleted";
       ret (Sent 200 (BStatus docId tenantId
                        (if deleted then "deleted"
                         else "not_found_or_deleted"))))
    (fun error => ret (Next error)).

End WithConfig.

End DocumentsRoutes.

(** ** routes/health.routes.ts *)

Record HealthStatus := {
  health_status : string;            (* UP, DEGRADED or DOWN *)
  health_elasticsearch : string;
  health_redis : string
}.

Module HealthRoutes.

(** [router.get('/')]; the two checks are awaited together, and run here one
    after the other. *)
Definition get (cluster_status : string) : M (Z * HealthStatus) :=
  do opensearchHealthy <- OpenSearchService.healthCheck cluster_status;
  do redisHealthy <- RedisService.ping;
  let status :=
    {| health_status :=
         if opensearchHealthy && redisHealthy then "UP"
         else if opensearchHealthy || redisHealthy then "DEGRADED"
         else "DOWN";
       health_elasticsearch := if opensearchHealthy then "UP" else "DOWN";
       health_redis := if redisHealthy then "UP" else "DOWN" |} in
  let httpStatus :=
    if String.eqb (health_status status) "UP" then 200
    else if String.eqb (health_status status) "DEGRADED" then 200
    else 503 in
  ret (httpStatus, status).

End HealthRoutes.

(** ** app.ts: tenant extraction, rate limiting, the route, the error handler *)

Module app.

Section WithDeps.

Variable config : Config.
Variable engine : gmap string DocumentIndex -> SearchBody -> SearchHits.

Definition finish (hs : headers) (r : reply) : M Response :=
  match r with
  | Sent st b =>
      ret {| status := st; response_headers := hs; response_body := b |}
  | Next e =>
      do sb <- errorHandler e;
      ret {| status := fst sb; response_headers := hs;
             response_body := snd sb |}
  end.

(** [app.use(path, extractTenantId, rateLimiter, routes)]; [None] when
    the rate limiter met a counter that is not a number. *)
Definition protected (header : option string)
    (route : option string -> M reply) : M (option Response) :=
  do extracted <- tenant.extractTenantId header;
  match extracted with
  | inr (st, b) =>
      ret (Some {| status := st; response_headers := [];
                   response_body := b |})
  | inl tenantId =>
      do limited <- rateLimiter.rateLimiter config (Some tenantId);
      match snd limited with
      | NextOk =>
          do r <- route (Some tenantId);
          do resp <- finish (fst limited) r;
          ret (Some resp)
      | NextError e =>
          do resp <- finish (fst limited) (Next e);
          ret (Some resp)
      | NotANumber => ret None
      end
  end.

Definition search (header : option string) (raw : RawQuery)
  : M (option Response) :=
  protected header (fun context => SearchRoutes.get config engine context raw).

Definition createDocument (header : option string) (input : DocumentInput)
  : M (option Response) :=
  protected header (fun context => DocumentsRoutes.post context input).

Definition getDocument (header : option string) (docId : string)
  : M (option Response) :=
  protected header (fun context => DocumentsRoutes.get config context docId).

Definition deleteDocument (header : option string) (docId : string)
  : M (option Response) :=
  protected header (fun context => DocumentsRoutes.delete context docId).

End WithDeps.

End app.

(** ** Vocabulary of the properties *)

(** Redis answers every command, or fails every command. *)
Definition reachable (r : Redis) : Prop :=
  redis_up r = true /\ redis_faults r = [].

Definition unreachable (r : Redis) : Prop :=
  redis_up r = false /\ redis_faults r = [].

(** Redis once a command has used up its entry of the schedule. *)
Definition after_command (r : Redis) : Redis :=
  {| redis_up := redis_up r;
     redis_faults := List.tl (redis_faults r);
     redis_data := redis_data r |}.


(** Empty, or white space only. *)
Fixpoint blank (s : string) : bool :=
  match s with
  | EmptyString => true
  | String c s' => Js.is_white c && blank s'
  end.

(** The weight the engine gives a field written [name^n]; 1 without [^n]. *)
Fixpoint after_caret (s : string) : option string :=
  match s with
  | EmptyString => None
  | String c s' => if Ascii.eqb c "^" then Some s' else after_caret s'
  end.

Definition boost (field : string) : Z :=
  match after_caret field with
  | Some n => if Js.digits_only n then Js.Number n else 1
  | None => 1
  end.

(** The plan has the term clause that restricts it to one tenant. *)
Definition has_tenant_filter (tenantId : string) (body : SearchBody) : Prop :=
  In (Term "tenant_id" tenantId) (filter body).


(** What the route answers from the index engine alone. *)
Definition answer_of_engine
    (engine : gmap string DocumentIndex -> SearchBody -> SearchHits)
    (tenantId : string) (query : SearchQuery) (o : OpenSearch) : reply :=
  if os_up o then
    let found := engine (os_docs o) (OpenSearchService.searchBody tenantId query) in
    Sent 200
      (BJson (VSearch
         {| resp_tenantId := tenantId;
            resp_query := q query;
            resp_offset := Js.num_or (sq_offset query) 0;
            resp_limit := Js.num_or (sq_limit query) 10;
            resp_total := total_value found;
            resp_results :=
              List.map OpenSearchService.mapHit (default [] (hits found)) |}))
  else Next opensearch_client.connection_error.

(** A handler serving one request at the instant [t]. *)
Definition at_time {A} (t : Z) (m : M A) (w : World) : result A * World :=
  m (set_clock t w).

(** The string has no underscore. *)
Fixpoint no_underscore (s : string) : bool :=
  match s with
  | EmptyString => true
  | String c s' => negb (Ascii.eqb c "_") && no_underscore s'
  end.

(** ** Sample data for the worked examples *)

Module Sample.

Definition cfg5 : Config :=
  {| rateLimit_windowMs := 1000;
     rateLimit_maxRequests := 5;
     cache_ttlSeconds := 60;
     cache_searchTtlSeconds := 120 |}.

(** An engine that keeps the documents passing every term clause on
    [tenant_id], in key order, without highlights. *)
Definition term_ok (src : DocumentIndex) (c : clause) : bool :=
  match c with
  | Term field v =>
      if String.eqb field "tenant_id" then String.eqb (tenant_id src) v
      else true
  | _ => true
  end.

Definition to_hit (src : DocumentIndex) : Hit :=
  {| hit_source := {| hs_doc_id := doc_id src; hs_title := ix_title src;
                      hs_content := ix_content src; hs_tags := ix_tags src |};
     hit_highlight := None;
     hit_score := 1 |}.

Definition engine (d : gmap string DocumentIndex) (b : SearchBody) : SearchHits :=
  let found :=
    List.filter (fun src => List.forallb (term_ok src) (filter b))
                (map_to_list d).*2 in
  {| hits := Some (List.map to_hit found);
     total_value := Z.of_nat (List.length found) |}.

Definition world (now : Z) (up : bool) : World :=
  {| clock := now;
     redis := {| redis_up := up; redis_faults := []; redis_data := ∅ |};
     opensearch := {| os_up := true; os_docs := ∅ |};
     logs := []; metrics := []; entropy := [] |}.

Definition query (text : string) : SearchQuery :=
  {| q := text; sq_offset := None; sq_limit := None; sq_tag := Some "payments";
     sq_author := None; sq_from := None; sq_to := None |}.

Definition indexed (tenantId docId title content : string) : DocumentIndex :=
  {| tenant_id := tenantId; doc_id := docId;
     ix_title := title; ix_content := content;
     ix_tags := Some []; ix_metadata := None;
     created_at := Js.toISOString 1700000000000;
     updated_at := Js.toISOString 1700000000000 |}.

(** A world whose index holds the given documents under their index ids. *)
Definition with_index (docs : list DocumentIndex) (w : World) : World :=
  set_opensearch
    {| os_up := true;
       os_docs :=
         list_to_map
           (List.map (fun d => (OpenSearchService.index_id (tenant_id d) (doc_id d), d))
                     docs) |} w.

Definition input (id : option string) (title content : string) : DocumentInput :=
  {| in_id := id; in_title := Some title; in_content := Some content;
     in_tags := None; in_metadata := None |}.

Definition raw (text limit offset : option string) : RawQuery :=
  {| raw_q := text; raw_offset := offset; raw_limit := limit;
     raw_tag := None; raw_author := None; raw_from := None; raw_to := None |}.

End Sample.

(** ** Vocabulary of the rate limiter's properties *)

(** The count the limiter reads for a tenant at the world's instant: a
    missing counter reads as 0; [None] when the key holds no number. *)
Definition stored_count (config : Config) (tenantId : string) (w : World)
  : option Z :=
  match ioredis.visible (clock w) (redis_data (redis w))
          (rateLimiter.countKey config tenantId (clock w)) with
  | None => Some 0
  | Some (VNum n) => Some n
  | Some _ => None
  end.

(** The value of a header, when it was set. *)
Fixpoint header (name : string) (hs : headers) : option string :=
  match hs with
  | [] => None
  | (k, v) :: rest => if String.eqb k name then Some v else header name rest
  end.

(** The limiter serving one request of a tenant at each of the instants
    [ts], in turn. *)
Fixpoint serve_all (config : Config) (tenantId : string) (ts : list Z)
    (w : World) : list (result (headers * passed)) * World :=
  match ts with
  | [] => ([], w)
  | t :: ts' =>
      let '(r, w1) := rateLimiter.rateLimiter config (Some tenantId) (set_clock t w) in
      let '(rs, w2) := serve_all config tenantId ts' w1 in
      (r :: rs, w2)
  end.

Definition allowed (r : result (headers * passed)) : bool :=
  match r with
  | Ok (_, NextOk) => true
  | _ => false
  end.

Definition retry_after (r : result (headers * passed)) : option string :=
  match r with
  | Ok (hs, NextError (AppError 429 _)) => header "Retry-After" hs
  | _ => None
  end.

(** The counter of the window starting at [start] holds [k], for the whole
    window: it is absent with [k = 0], or present with an expiry that is not
    before the end of the window. *)
Definition counter_is (config : Config) (tenantId : string) (start k : Z)
    (w : World) : Prop :=
  reachable (redis w) /\
  match redis_data (redis w) !! rateLimiter.countKey config tenantId start with
  | Some e =>
      e_value e = VNum k /\
      exists x, e_expireAt e = Some x /\ start + rateLimit_windowMs config <= x
  | None => k = 0
  end.

(** ** Vocabulary of the further properties *)

(** A filter of the request counts when it is a non-empty string. *)
Definition set_value (o : option string) : option string :=
  if Js.truthy_ostr o then o else None.

(** The first fragment the engine highlighted in a field, if any. *)
Definition first_fragment (o : option (list string)) : option string :=
  match o with
  | Some (c :: _) => Some c
  | _ => None
  end.

Definition fragment_of (field : HitHighlight -> option (list string)) (h : Hit)
  : option string :=
  match hit_highlight h with
  | Some hl => first_fragment (field hl)
  | None => None
  end.

(** The fallback of the snippet: the content cut at 150 characters. *)
Definition truncated (content : string) : string :=
  Js.prefix 150 content +:+
  (if (150 <? String.length content)%nat then "..." else EmptyString).


(** * Properties *)

(** ** Known answers of the digest *)

Example sha256_empty :
  hash.hashString "" =
  "e3b0c44298fc1c149afbf4c8996fb92427ae41e4649b934ca495991b7852b855".
Proof. vm_compute. reflexivity. Qed.

Example sha256_abc :
  hash.hashString "abc" =
  "ba7816bf8f01cfea414140de5dae2223b00361a396177a9cb410ff61f20015ad".
Proof. vm_compute. reflexivity. Qed.

(** Two blocks, and a code unit above 127 at the end. *)
Example sha256_two_blocks :
  hash.hashString
    ("aaaaaaaaaaaaaaaaaaaaaaaaaaaaaaaaaaaaaaaaaaaaaaaaaaaaaaaaaaaaaaaaaaaaaaaaaaaaaaaaaaaaaaaaaaaaaaaaaaaa"
     +:+ String (ascii_of_nat 233) EmptyString) =
  "e40a5656069518cafca2e94e6577137c1211346143180f8098d788f16d0c058d".
Proof. vm_compute. reflexivity. Qed.

(** The key of a search of tenant [t1] for [pay] with the tag [x], first
    page of ten. *)
Example getSearchKey_sample :
  CacheService.getSearchKey "t1" "pay"
    {| f_tag := Some "x"; f_author := None; f_from := None; f_to := None |} 0 10 =
  "search:t1:b6c4fc75d9b06321d90adf9fc4cd206ede0d1edcf87b1b0e3899e17558ef5185".
Proof. vm_compute. reflexivity. Qed.

Example toISOString_epoch :
  Js.toISOString 0 = "1970-01-01T00:00:00.000Z".
Proof. vm_compute. reflexivity. Qed.

Example toISOString_2023 :
  Js.toISOString 1700000000123 = "2023-11-14T22:13:20.123Z".
Proof. vm_compute. reflexivity. Qed.

Example toISOString_leap :
  Js.toISOString 951782400000 = "2000-02-29T00:00:00.000Z".
Proof. vm_compute. reflexivity. Qed.

(** ** The query planner *)

Section Trim.

Lemma blank_rev_app (s1 s2 : string) :
  blank (String.rev_app s1 s2) = blank s1 && blank s2.
Proof.
  revert s2. induction s1 as [|c s1 IH]; intros s2; simpl.
  - reflexivity.
  - rewrite IH. simpl. destruct (Js.is_white c); simpl.
    + reflexivity.
    + now rewrite andb_false_r.
Qed.

Lemma blank_rev (s : string) : blank (String.rev s) = blank s.
Proof. unfold String.rev. rewrite blank_rev_app. simpl. apply andb_true_r. Qed.

Lemma trimStart_blank (s : string) :
  blank s = true -> Js.trimStart s = EmptyString.
Proof.
  induction s as [|c s IH]; simpl; [reflexivity|].
  destruct (Js.is_white c); simpl; [exact IH | discriminate].
Qed.

Lemma blank_trimStart (s : string) : blank (Js.trimStart s) = blank s.
Proof.
  induction s as [|c s IH]; simpl; [reflexivity|].
  destruct (Js.is_white c) eqn:E; simpl; [exact IH|].
  now rewrite E.
Qed.

Lemma blank_trim (s : string) : blank (Js.trim s) = blank s.
Proof.
  unfold Js.trim, Js.trimEnd.
  now rewrite blank_rev, blank_trimStart, blank_rev, blank_trimStart.
Qed.

(** A blank string trims to the empty string, and only a blank one does. *)
Lemma trim_blank (s : string) :
  Js.truthy_str (Js.trim s) = negb (blank s).
Proof.
  destruct (blank s) eqn:E; simpl.
  - unfold Js.trim, Js.trimEnd.
    rewrite (trimStart_blank s E). reflexivity.
  - destruct (Js.trim s) eqn:T; [|reflexivity].
    rewrite <- blank_trim, T in E. discriminate.
Qed.

Lemma truthy_and_trim (s : string) :
  Js.truthy_str s && Js.truthy_str (Js.trim s) = negb (blank s).
Proof.
  rewrite trim_blank. destruct s; simpl; [reflexivity|].
  reflexivity.
Qed.

End Trim.

(** The filter clauses of a plan: the tenant clause first, then one clause
    for each filter of the request that is set. *)
Lemma searchBody_filter (tenantId : string) (query : SearchQuery) :
  filter (OpenSearchService.searchBody tenantId query) =
  (Term "tenant_id" tenantId ::
   (if Js.truthy_ostr (sq_tag query)
    then [Term "tags" (Js.str_or (sq_tag query) EmptyString)] else []) ++
   (if Js.truthy_ostr (sq_author query)
    then [Term "metadata.author" (Js.str_or (sq_author query) EmptyString)]
    else []) ++
   (if Js.truthy_ostr (sq_from query) || Js.truthy_ostr (sq_to query)
    then [Range "created_at"
            (if Js.truthy_ostr (sq_from query) then sq_from query else None)
            (if Js.truthy_ostr (sq_to query) then sq_to query else None)]
    else []))%list.
Proof.
  unfold OpenSearchService.searchBody; simpl.
  destruct (Js.truthy_ostr (sq_tag query)),
           (Js.truthy_ostr (sq_author query)),
           (Js.truthy_ostr (sq_from query) || Js.truthy_ostr (sq_to query));
    reflexivity.
Qed.

Lemma searchBody_tenant_values (tenantId : string) (query : SearchQuery) (v : string) :
  In (Term "tenant_id" v) (filter (OpenSearchService.searchBody tenantId query)) ->
  v = tenantId.
Proof.
  rewrite searchBody_filter. intros [H|H]; [congruence|].
  repeat (apply in_app_or in H; destruct H as [H|H]);
    repeat match type of H with
           | In _ (if ?b then _ else _) => destruct b
           end;
    simpl in H; intuition discriminate.
Qed.

Lemma search_uses_searchBody
    (e1 e2 : gmap string DocumentIndex -> SearchBody -> SearchHits)
    (tenantId : string) (query : SearchQuery) (w : World) :
  (forall d, e1 d (OpenSearchService.searchBody tenantId query) =
             e2 d (OpenSearchService.searchBody tenantId query)) ->
  OpenSearchService.search e1 tenantId query w =
  OpenSearchService.search e2 tenantId query w.
Proof.
  intros H.
  unfold OpenSearchService.search, try_catch, bind, opensearch_client.search,
    opensearch_client.request.
  destruct (os_up (opensearch w)); [|reflexivity].
  now rewrite H.
Qed.

(** C1. Every plan built by [search] carries, as its first filter clause, a
    term clause on [tenant_id] whose value is the [tenantId] argument; no
    other clause of the plan is on [tenant_id], whatever the request holds;
    and the engine is only ever asked to run plans that have this clause:
    two engines that agree on the plans with the tenant clause give the same
    search. *)
Theorem search_always_filters_by_tenant (tenantId : string) (query : SearchQuery) :
  let body := OpenSearchService.searchBody tenantId query in
  List.hd_error (filter body) = Some (Term "tenant_id" tenantId) /\
  has_tenant_filter tenantId body /\
  (forall v, In (Term "tenant_id" v) (filter body) -> v = tenantId) /\
  (forall c, In c (must body) -> forall v, c <> Term "tenant_id" v) /\
  (forall e1 e2 w,
     (forall d b, has_tenant_filter tenantId b -> e1 d b = e2 d b) ->
     OpenSearchService.search e1 tenantId query w =
     OpenSearchService.search e2 tenantId query w).
Proof.
  intros body. subst body.
  assert (Hin : has_tenant_filter tenantId
                  (OpenSearchService.searchBody tenantId query)).
  { unfold has_tenant_filter. rewrite searchBody_filter. now left. }
  repeat split.
  - now rewrite searchBody_filter.
  - exact Hin.
  - apply searchBody_tenant_values.
  - intros c Hc v. unfold OpenSearchService.searchBody in Hc; simpl in Hc.
    destruct (Js.truthy_str (q query) && Js.truthy_str (Js.trim (q query)));
      simpl in Hc; destruct Hc as [<-|[]]; discriminate.
  - intros e1 e2 w H. apply search_uses_searchBody.
    intros d. now apply H.
Qed.

Lemma search_always_filters_by_tenant_witness :
  OpenSearchService.search Sample.engine "tenant-123" (Sample.query "payment")
    (Sample.world 1700000000000 true) =
  OpenSearchService.search Sample.engine "tenant-123" (Sample.query "payment")
    (Sample.world 1700000000000 true).
Proof.
  apply (search_always_filters_by_tenant "tenant-123" (Sample.query "payment")).
  intros d b _. reflexivity.
Defined.

(** C8. A query text that is empty or white space yields the single must
    clause [match_all], next to the tenant clause and the filters of the
    request; any other text yields one multi-match of that text over title
    with weight 3, content with weight 1 and tags with weight 2, of type
    best-fields with operator or. In both cases the filter clauses are the
    same. *)
Theorem search_text_clause (tenantId : string) (query : SearchQuery) :
  let body := OpenSearchService.searchBody tenantId query in
  (blank (q query) = true -> must body = [MatchAll]) /\
  (blank (q query) = false ->
     exists fields,
       must body = [BoolShould [MultiMatch (q query) fields "best_fields" "or"]] /\
       fields = ["title^3"; "content"; "tags^2"] /\
       List.map boost fields = [3; 1; 2]) /\
  has_tenant_filter tenantId body /\
  (forall text,
     filter body =
     filter (OpenSearchService.searchBody tenantId
               {| q := text; sq_offset := sq_offset query;
                  sq_limit := sq_limit query; sq_tag := sq_tag query;
                  sq_author := sq_author query; sq_from := sq_from query;
                  sq_to := sq_to query |})).
Proof.
  intros body. subst body. split; [|split; [|split]].
  - intros Hb. unfold OpenSearchService.searchBody; simpl.
    now rewrite truthy_and_trim, Hb.
  - intros Hb. exists ["title^3"; "content"; "tags^2"].
    unfold OpenSearchService.searchBody; simpl.
    rewrite truthy_and_trim, Hb. simpl. repeat split; reflexivity.
  - unfold has_tenant_filter. rewrite searchBody_filter. now left.
  - intros text. now rewrite !searchBody_filter.
Qed.

Lemma search_text_clause_witness :
  must (OpenSearchService.searchBody "tenant-123" (Sample.query "   ")) = [MatchAll] /\
  exists fields,
    must (OpenSearchService.searchBody "tenant-123" (Sample.query "payment")) =
    [BoolShould [MultiMatch "payment" fields "best_fields" "or"]] /\
    fields = ["title^3"; "content"; "tags^2"] /\
    List.map boost fields = [3; 1; 2].
Proof.
  split.
  - apply (search_text_clause "tenant-123" (Sample.query "   ")). reflexivity.
  - apply (search_text_clause "tenant-123" (Sample.query "payment")). reflexivity.
Defined.

(** ** Paging parameters of the search route *)












(** ** Redis calls when the server answers, and when it does not *)

Lemma str_or_some (s : string) : Js.str_or (Some s) EmptyString = s.
Proof. now destruct s. Qed.

Lemma set_redis_same (w : World) :
  set_redis (redis w) w = w.
Proof. now destruct w. Qed.

Lemma command_reachable {A}
    (f : Z -> gmap string Entry -> result A * gmap string Entry) (w : World) :
  reachable (redis w) ->
  ioredis.command f w =
  (fst (f (clock w) (redis_data (redis w))),
   set_redis {| redis_up := true; redis_faults := [];
                redis_data := snd (f (clock w) (redis_data (redis w))) |} w).
Proof.
  destruct w as [c [up fl d] o lg mt en]. intros [Hup Hfl]. cbn in *. subst.
  unfold ioredis.command, ioredis.fails. cbn. now destruct (f c d).
Qed.

Lemma command_unreachable {A}
    (f : Z -> gmap string Entry -> result A * gmap string Entry) (w : World) :
  unreachable (redis w) ->
  ioredis.command f w = (Throw ioredis.connection_error, w).
Proof.
  destruct w as [c [up fl d] o lg mt en]. intros [Hup Hfl]. cbn in *. subst.
  reflexivity.
Qed.

Lemma reachable_set_data (d : gmap string Entry) :
  reachable {| redis_up := true; redis_faults := []; redis_data := d |}.
Proof. now split. Qed.

Lemma reachable_eta (w : World) :
  reachable (redis w) ->
  set_redis {| redis_up := true; redis_faults := [];
               redis_data := redis_data (redis w) |} w = w.
Proof.
  destruct w as [c [up fl d] o lg mt en]. intros [Hup Hfl]. cbn in *. now subst.
Qed.

Lemma RedisService_get_up (key : string) (w : World) :
  reachable (redis w) ->
  RedisService.get key w =
  (Ok (ioredis.visible (clock w) (redis_data (redis w)) key), w).
Proof.
  intros Hup.
  unfold RedisService.get, try_catch, bind, ioredis.get, ret.
  rewrite command_reachable by exact Hup. cbn.
  now rewrite reachable_eta.
Qed.

Lemma RedisService_set_up (key : string) (v : value) (ttl : Z) (w : World) :
  reachable (redis w) -> 0 < ttl ->
  RedisService.set key v (Some ttl) w =
  (Ok true,
   set_redis {| redis_up := true; redis_faults := [];
                redis_data :=
                  <[key := {| e_value := v;
                              e_expireAt := Some (clock w + 1000 * ttl) |}]>
                    (redis_data (redis w)) |} w).
Proof.
  intros Hup Httl.
  unfold RedisService.set, try_catch, bind, ioredis.setex, ret.
  destruct (Z.eqb_spec ttl 0); [lia|].
  rewrite command_reachable by exact Hup.
  destruct (Z.leb_spec ttl 0); [lia|]. reflexivity.
Qed.

Lemma RedisService_get_down (key : string) (w : World) :
  unreachable (redis w) ->
  RedisService.get key w = (Ok None, snd (logger.error "Redis get error" w)).
Proof.
  intros Hdown.
  unfold RedisService.get, try_catch, bind, ioredis.get, ret.
  now rewrite command_unreachable.
Qed.

Lemma RedisService_set_down (key : string) (v : value) (ttl : option Z) (w : World) :
  unreachable (redis w) ->
  RedisService.set key v ttl w = (Ok false, snd (logger.error "Redis set error" w)).
Proof.
  intros Hdown.
  unfold RedisService.set, try_catch, bind, ioredis.setex, ioredis.set, ret.
  destruct ttl as [t|]; [destruct (t =? 0)|]; now rewrite command_unreachable.
Qed.

(** A read under any schedule: a failure is logged and reads as nothing. *)
Lemma RedisService_get_run (key : string) (w : World) :
  RedisService.get key w =
  if ioredis.fails (redis w) then
    (Ok None,
     snd (logger.error "Redis get error" (set_redis (after_command (redis w)) w)))
  else
    (Ok (ioredis.visible (clock w) (redis_data (redis w)) key),
     set_redis (after_command (redis w)) w).
Proof.
  unfold RedisService.get, try_catch, bind, ioredis.get, ioredis.command, ret.
  now destruct (ioredis.fails (redis w)).
Qed.


(** ** The rate limiter *)

Lemma ceil_div_spec (a b : Z) :
  0 < b -> b * (Js.ceil_div a b - 1) < a <= b * Js.ceil_div a b.
Proof.
  intros Hb. unfold Js.ceil_div.
  pose proof (Z.div_mod (- a) b ltac:(lia)).
  pose proof (Z.mod_pos_bound (- a) b Hb). nia.
Qed.

Lemma windowStart_spec (config : Config) (now : Z) :
  0 < rateLimit_windowMs config ->
  rateLimiter.windowStart config now <= now <
  rateLimiter.windowStart config now + rateLimit_windowMs config.
Proof.
  intros Hw. unfold rateLimiter.windowStart.
  pose proof (Z.div_mod now (rateLimit_windowMs config) ltac:(lia)).
  pose proof (Z.mod_pos_bound now (rateLimit_windowMs config) Hw). nia.
Qed.

Section Step.

Variable config : Config.
Variable tenantId : string.
Variable w : World.

Hypothesis window_positive : 0 < rateLimit_windowMs config.
Hypothesis tenant_present : Js.truthy_str tenantId = true.
Hypothesis redis_answers : reachable (redis w).

Let now := clock w.
Let windowMs := rateLimit_windowMs config.
Let maxRequests := rateLimit_maxRequests config.
Let key := rateLimiter.countKey config tenantId now.
Let resetTime := rateLimiter.windowStart config now + windowMs.

Lemma ttl_positive : 0 < Js.ceil_div windowMs 1000.
Proof. pose proof (ceil_div_spec windowMs 1000 ltac:(lia)). subst windowMs. lia. Qed.

(** At the limit: rejected, with the time left in the window, and the
    counter is left as it is. *)
Lemma rateLimiter_rejects (c : Z) :
  stored_count config tenantId w = Some c ->
  maxRequests <= c ->
  let retryAfter := Js.ceil_div (resetTime - now) 1000 in
  rateLimiter.rateLimiter config (Some tenantId) w =
  (Ok ([ ("X-RateLimit-Limit", Js.toString maxRequests);
         ("X-RateLimit-Remaining", "0");
         ("X-RateLimit-Reset", Js.toISOString resetTime);
         ("Retry-After", Js.toString retryAfter) ],
       NextError (AppError 429 (rateLimiter.exceeded_message config retryAfter))),
   snd (logger.warn "Rate limit exceeded" w)).
Proof.
  intros Hc Hmax. unfold rateLimiter.rateLimiter. simpl. rewrite tenant_present.
  simpl. unfold try_catch, bind, Date_now.
  rewrite RedisService_get_up by exact redis_answers.
  unfold stored_count in Hc. fold now key in Hc |- *.
  destruct (ioredis.visible now (redis_data (redis w)) key) as [[n|d|r]|];
    try discriminate; injection Hc as ->;
    (destruct (Z.leb_spec (rateLimit_maxRequests config) c);
     [reflexivity | subst maxRequests; lia]).
Qed.

(** Below the limit: allowed, the counter is written back incremented,
    with the window size in whole seconds as its time to live. *)
Lemma rateLimiter_allows (c : Z) :
  stored_count config tenantId w = Some c ->
  c < maxRequests ->
  rateLimiter.rateLimiter config (Some tenantId) w =
  (Ok ([ ("X-RateLimit-Limit", Js.toString maxRequests);
         ("X-RateLimit-Remaining", Js.toString (Z.max 0 (maxRequests - (c + 1))));
         ("X-RateLimit-Reset", Js.toISOString resetTime) ],
       NextOk),
   set_redis {| redis_up := true; redis_faults := [];
                redis_data :=
                  <[key := {| e_value := VNum (c + 1);
                              e_expireAt :=
                                Some (now + 1000 * Js.ceil_div windowMs 1000) |}]>
                    (redis_data (redis w)) |} w).
Proof.
  intros Hc Hmax. unfold rateLimiter.rateLimiter. simpl. rewrite tenant_present.
  simpl. unfold try_catch, bind, Date_now.
  rewrite RedisService_get_up by exact redis_answers.
  unfold stored_count in Hc. fold now key in Hc |- *.
  destruct (ioredis.visible now (redis_data (redis w)) key) as [[n|d|r]|];
    try discriminate; injection Hc as ->;
    (destruct (Z.leb_spec (rateLimit_maxRequests config) c);
     [subst maxRequests; lia|]);
    rewrite RedisService_set_up by (trivial; apply ttl_positive);
    reflexivity.
Qed.

End Step.

Section Window.

Variable config : Config.
Variable tenantId : string.

Hypothesis window_positive : 0 < rateLimit_windowMs config.
Hypothesis tenant_present : Js.truthy_str tenantId = true.

Let windowMs := rateLimit_windowMs config.
Let maxRequests := rateLimit_maxRequests config.

Lemma windowStart_idem (t : Z) :
  rateLimiter.windowStart config (rateLimiter.windowStart config t) =
  rateLimiter.windowStart config t.
Proof.
  unfold rateLimiter.windowStart. rewrite Z.div_mul by lia. reflexivity.
Qed.

Lemma countKey_window (t : Z) :
  rateLimiter.countKey config tenantId t =
  rateLimiter.countKey config tenantId (rateLimiter.windowStart config t).
Proof. unfold rateLimiter.countKey. now rewrite windowStart_idem. Qed.

(** Two windows have two counters. *)
Lemma countKey_inj (t1 t2 : Z) :
  rateLimiter.countKey config tenantId t1 = rateLimiter.countKey config tenantId t2 ->
  rateLimiter.windowStart config t1 = rateLimiter.windowStart config t2.
Proof.
  unfold rateLimiter.countKey. intros H.
  apply String.app_inj in H. apply String.app_inj in H.
  now apply pretty_Z_inj in H.
Qed.

Lemma stored_count_in_window (start k t : Z) (w : World) :
  counter_is config tenantId start k w ->
  rateLimiter.windowStart config t = start ->
  stored_count config tenantId (set_clock t w) = Some k.
Proof.
  intros [_ H] Ht. unfold stored_count; simpl.
  rewrite countKey_window, Ht. unfold ioredis.visible.
  destruct (redis_data (redis w) !! rateLimiter.countKey config tenantId start)
    as [e|].
  - destruct H as [Hv [x [Hx Hle]]]. unfold ioredis.live. rewrite Hx.
    pose proof (windowStart_spec config t window_positive) as Hs.
    rewrite Ht in Hs. destruct (Z.ltb_spec t x); [|lia].
    now rewrite Hv.
  - now subst k.
Qed.

(** An allowed request moves the counter of its window from [k] to
    [k + 1] and touches no other key. *)
Lemma allow_in_window (start k t : Z) (w : World) :
  counter_is config tenantId start k w ->
  rateLimiter.windowStart config t = start ->
  k < maxRequests ->
  exists hs w',
    rateLimiter.rateLimiter config (Some tenantId) (set_clock t w) =
      (Ok (hs, NextOk), w') /\
    header "X-RateLimit-Remaining" hs =
      Some (Js.toString (Z.max 0 (maxRequests - (k + 1)))) /\
    counter_is config tenantId start (k + 1) w' /\
    (forall key', key' <> rateLimiter.countKey config tenantId start ->
       redis_data (redis w') !! key' = redis_data (redis w) !! key').
Proof.
  intros Hinv Ht Hk.
  pose proof (stored_count_in_window start k t w Hinv Ht) as Hc.
  destruct Hinv as [Hup Hinv].
  eexists _, _. split; [|split; [|split]].
  - exact (rateLimiter_allows config tenantId (set_clock t w)
             window_positive tenant_present Hup k Hc Hk).
  - reflexivity.
  - split; [apply reachable_set_data|]. simpl.
    rewrite (countKey_window t), Ht, lookup_insert_eq. simpl.
    split; [reflexivity|]. eexists. split; [reflexivity|].
    pose proof (ceil_div_spec (rateLimit_windowMs config) 1000 ltac:(lia)).
    pose proof (windowStart_spec config t window_positive). lia.
  - intros key' Hne. simpl.
    rewrite (countKey_window t), Ht. now apply lookup_insert_ne.
Qed.

(** A rejected request leaves Redis as it is, and tells how long to wait:
    at least a second. *)
Lemma reject_in_window (start k t : Z) (w : World) :
  counter_is config tenantId start k w ->
  rateLimiter.windowStart config t = start ->
  maxRequests <= k ->
  exists hs msg w' n,
    rateLimiter.rateLimiter config (Some tenantId) (set_clock t w) =
      (Ok (hs, NextError (AppError 429 msg)), w') /\
    header "Retry-After" hs = Some (Js.toString n) /\
    n = Js.ceil_div (start + windowMs - t) 1000 /\ 0 < n /\
    redis w' = redis w.
Proof.
  intros Hinv Ht Hk.
  pose proof (stored_count_in_window start k t w Hinv Ht) as Hc.
  destruct Hinv as [Hup Hinv].
  eexists _, _, _, _. split; [|split; [|split; [|split]]].
  - exact (rateLimiter_rejects config tenantId (set_clock t w)
             tenant_present Hup k Hc Hk).
  - reflexivity.
  - simpl. now rewrite Ht.
  - simpl.
    pose proof (ceil_div_spec
      (rateLimiter.windowStart config t + rateLimit_windowMs config - t) 1000
      ltac:(lia)).
    pose proof (windowStart_spec config t window_positive). lia.
  - reflexivity.
Qed.

End Window.

Lemma serve_all_app (config : Config) (tenantId : string) (ts1 ts2 : list Z)
    (w : World) :
  serve_all config tenantId (ts1 ++ ts2) w =
  ((fst (serve_all config tenantId ts1 w) ++
    fst (serve_all config tenantId ts2
           (snd (serve_all config tenantId ts1 w))))%list,
   snd (serve_all config tenantId ts2 (snd (serve_all config tenantId ts1 w)))).
Proof.
  revert w. induction ts1 as [|t ts1 IH]; intros w; simpl.
  - now destruct (serve_all config tenantId ts2 w).
  - destruct (rateLimiter.rateLimiter config (Some tenantId) (set_clock t w))
      as [r w1].
    rewrite IH. destruct (serve_all config tenantId ts1 w1) as [rs w2]. simpl.
    now destruct (serve_all config tenantId ts2 w2).
Qed.

(** While the counter stays below the limit every request of the window is
    allowed and counted. *)
Lemma serve_all_below (config : Config) (tenantId : string) (start : Z)
    (ts : list Z) :
  0 < rateLimit_windowMs config ->
  Js.truthy_str tenantId = true ->
  Forall (fun t => rateLimiter.windowStart config t = start) ts ->
  forall (k : Z) (w : World),
    counter_is config tenantId start k w ->
    k + Z.of_nat (length ts) <= rateLimit_maxRequests config ->
    List.map allowed (fst (serve_all config tenantId ts w)) =
      List.repeat true (length ts) /\
    counter_is config tenantId start (k + Z.of_nat (length ts))
      (snd (serve_all config tenantId ts w)) /\
    (forall key', key' <> rateLimiter.countKey config tenantId start ->
       redis_data (redis (snd (serve_all config tenantId ts w))) !! key' =
       redis_data (redis w) !! key').
Proof.
  intros Hw Ht Hall. induction Hall as [|t ts Hs Hall IH]; intros k w Hinv Hk.
  - simpl. rewrite Z.add_0_r. auto.
  - simpl length in *. rewrite Nat2Z.inj_succ in *.
    destruct (allow_in_window config tenantId Hw Ht start k t w Hinv Hs ltac:(lia))
      as (hs & w1 & Hrun & _ & Hinv1 & Hframe1).
    simpl. rewrite Hrun.
    destruct (IH (k + 1) w1 Hinv1 ltac:(lia)) as (Hadm & Hinv2 & Hframe2).
    destruct (serve_all config tenantId ts w1) as [rs w2]. simpl in *.
    split; [now rewrite Hadm|]. split.
    + now replace (k + Z.succ (Z.of_nat (length ts)))
        with (k + 1 + Z.of_nat (length ts)) by lia.
    + intros key' Hne. now rewrite Hframe2, Hframe1.
Qed.

(** C4. The limiter counts per tenant and per window of [windowMs]
    milliseconds starting at [floor(now / windowMs) * windowMs]. With the
    stored count [c] (0 when the counter is missing): if [c >= maxRequests]
    the request is rejected with [Retry-After] the ceiling of the
    milliseconds left in the window over 1000, and Redis is not written; if
    [c < maxRequests] it is allowed with the remaining
    [max(0, maxRequests - (c + 1))], and the counter is written back as
    [c + 1] with the window size, in whole seconds rounded up, as its time to
    live. Hence, from a state without the counter, the first [maxRequests]
    requests of a window are allowed, the next one is rejected with a
    positive [Retry-After], and a request in another window is allowed on a
    counter of its own, which then holds 1. *)
Theorem rate_limiter_fixed_window (config : Config) (tenantId : string) :
  let windowMs := rateLimit_windowMs config in
  let maxRequests := rateLimit_maxRequests config in
  0 < windowMs ->
  Js.truthy_str tenantId = true ->
  (forall w c,
     reachable (redis w) ->
     stored_count config tenantId w = Some c ->
     let now := clock w in
     let windowStart := now / windowMs * windowMs in
     let key := "ratelimit:" +:+ tenantId +:+ ":" +:+ Js.toString windowStart in
     let out := rateLimiter.rateLimiter config (Some tenantId) w in
     stored_count config tenantId w =
       match ioredis.visible now (redis_data (redis w)) key with
       | None => Some 0
       | Some (VNum n) => Some n
       | Some _ => None
       end /\
     (maxRequests <= c ->
        allowed (fst out) = false /\
        retry_after (fst out) =
          Some (Js.toString (Js.ceil_div (windowStart + windowMs - now) 1000)) /\
        redis (snd out) = redis w) /\
     (c < maxRequests ->
        (exists hs,
           fst out = Ok (hs, NextOk) /\
           header "X-RateLimit-Remaining" hs =
             Some (Js.toString (Z.max 0 (maxRequests - (c + 1))))) /\
        redis_data (redis (snd out)) =
          <[key := {| e_value := VNum (c + 1);
                      e_expireAt :=
                        Some (now + 1000 * Js.ceil_div windowMs 1000) |}]>
            (redis_data (redis w)))) /\
  (forall a, 1000 * (Js.ceil_div a 1000 - 1) < a <= 1000 * Js.ceil_div a 1000) /\
  (windowMs mod 1000 = 0 -> 1000 * Js.ceil_div windowMs 1000 = windowMs) /\
  (forall w ts t_over t_next start,
     reachable (redis w) ->
     Z.of_nat (length ts) = maxRequests ->
     0 < maxRequests ->
     Forall (fun t => rateLimiter.windowStart config t = start) (ts ++ [t_over]) ->
     rateLimiter.windowStart config t_next <> start ->
     redis_data (redis w) !! rateLimiter.countKey config tenantId start = None ->
     redis_data (redis w) !! rateLimiter.countKey config tenantId t_next = None ->
     let out := serve_all config tenantId (ts ++ [t_over; t_next]) w in
     List.map allowed (fst out) = (List.repeat true (length ts) ++ [false; true])%list /\
     (exists n,
        retry_after (List.nth (length ts) (fst out) (Ok ([], NotANumber))) =
          Some (Js.toString n) /\ 0 < n) /\
     stored_count config tenantId (set_clock t_next (snd out)) = Some 1).
Proof.
  intros windowMs maxRequests Hw Ht. split; [|split; [|split]].
  - intros w c Hup Hc now windowStart key out. split; [reflexivity|]. split.
    + intros Hmax. subst out.
      rewrite (rateLimiter_rejects config tenantId w Ht Hup c Hc Hmax).
      simpl. auto.
    + intros Hmax. subst out.
      rewrite (rateLimiter_allows config tenantId w Hw Ht Hup c Hc Hmax).
      simpl. split; [|reflexivity]. eexists. split; reflexivity.
  - intros a. apply ceil_div_spec. lia.
  - intros Hmod. unfold Js.ceil_div.
    apply Z.mod_divide in Hmod; [|lia]. destruct Hmod as [m ->].
    rewrite <- Z.mul_opp_l, Z.div_mul by lia. lia.
  - intros w ts t_over t_next start Hup Hlen Hpos Hall Hnext Hfree Hfree' out.
    apply Forall_app in Hall as [Hall Hover].
    apply Forall_inv in Hover.
    assert (Hinv0 : counter_is config tenantId start 0 w).
    { split; [exact Hup|]. now rewrite Hfree. }
    destruct (serve_all_below config tenantId start ts Hw Ht Hall 0 w Hinv0
                ltac:(subst maxRequests; lia)) as (Hadm & Hinv1 & Hframe1).
    subst out. rewrite serve_all_app.
    destruct (serve_all config tenantId ts w) as [rs w1] eqn:Hrs.
    simpl fst in *. simpl snd in *.
    assert (Hlen' : length rs = length ts).
    { rewrite <- (length_map allowed rs), Hadm. apply repeat_length. }
    destruct (reject_in_window config tenantId Hw Ht start _ t_over w1 Hinv1 Hover
                ltac:(subst maxRequests; lia))
      as (hs & msg & w2 & n & Hrun2 & Hretry & _ & Hn & Hredis2).
    assert (Hinv2 : counter_is config tenantId
                      (rateLimiter.windowStart config t_next) 0 w2).
    { split; [rewrite Hredis2; apply Hinv1|].
      rewrite <- countKey_window by exact Hw.
      rewrite Hredis2, Hframe1, Hfree'; [reflexivity|].
      intros E. apply countKey_inj in E. apply Hnext. rewrite E.
      rewrite <- Hover. apply (windowStart_idem config Hw t_over). }
    destruct (allow_in_window config tenantId Hw Ht _ 0 t_next w2 Hinv2 eq_refl
                ltac:(subst maxRequests; lia))
      as (hs3 & w3 & Hrun3 & _ & Hinv3 & _).
    cbn [serve_all]. rewrite Hrun2, Hrun3. cbn [fst snd].
    split; [|split].
    + rewrite map_app, Hadm. reflexivity.
    + exists n. rewrite app_nth2 by lia. rewrite Hlen', Nat.sub_diag.
      simpl. now rewrite Hretry.
    + exact (stored_count_in_window config tenantId Hw
               (rateLimiter.windowStart config t_next) 1 t_next w3 Hinv3 eq_refl).
Qed.

Lemma rate_limiter_fixed_window_witness :
  List.map allowed
    (fst (serve_all Sample.cfg5 "tenant-123"
            [1700000000000; 1700000000100; 1700000000200; 1700000000300;
             1700000000999; 1700000000999; 1700000001000]
            (Sample.world 0 true))) =
  [true; true; true; true; true; false; true].
Proof.
  pose proof (rate_limiter_fixed_window Sample.cfg5 "tenant-123"
                ltac:(simpl; lia) eq_refl) as (_ & _ & _ & H).
  assert (Hnext : rateLimiter.windowStart Sample.cfg5 1700000001000 <>
                  1700000000000) by (vm_compute; discriminate).
  destruct (H (Sample.world 0 true)
              [1700000000000; 1700000000100; 1700000000200; 1700000000300;
               1700000000999]
              1700000000999 1700000001000 1700000000000
              (conj eq_refl eq_refl) eq_refl ltac:(simpl; lia)
              ltac:(repeat constructor) Hnext eq_refl eq_refl) as [Hmap _].
  exact Hmap.
Defined.







(** ** The search route *)

Lemma getSearchResult_down (tenantId query : string) (filters : Filters)
    (offset limit : Z) (w : World) :
  unreachable (redis w) ->
  CacheService.getSearchResult tenantId query filters offset limit w =
  (Ok None,
   snd (metricsService.recordCacheMiss "search"
          (snd (logger.error "Redis get error" w)))).
Proof.
  intros Hdown. unfold CacheService.getSearchResult, bind.
  now rewrite RedisService_get_down.
Qed.

Lemma setSearchResult_down (config : Config) (tenantId query : string)
    (filters : Filters) (offset limit : Z) (result : SearchResponse) (w : World) :
  unreachable (redis w) ->
  CacheService.setSearchResult config tenantId query filters offset limit result w =
  (Ok tt,
   snd (logger.debug "Cached search result"
          (snd (logger.error "Redis set error" w)))).
Proof.
  intros Hdown. unfold CacheService.setSearchResult, bind.
  now rewrite RedisService_set_down.
Qed.

Lemma opensearch_eta (o : OpenSearch) :
  os_up o = true -> {| os_up := true; os_docs := os_docs o |} = o.
Proof. destruct o; simpl. now intros ->. Qed.

Lemma set_opensearch_same (w : World) : set_opensearch (opensearch w) w = w.
Proof. now destruct w. Qed.

Lemma search_run
    (engine : gmap string DocumentIndex -> SearchBody -> SearchHits)
    (tenantId : string) (query : SearchQuery) (w : World) :
  OpenSearchService.search engine tenantId query w =
  if os_up (opensearch w) then
    let found :=
      engine (os_docs (opensearch w))
             (OpenSearchService.searchBody tenantId query) in
    (Ok (List.map OpenSearchService.mapHit (default [] (hits found)),
         total_value found), w)
  else
    (Throw opensearch_client.connection_error,
     snd (logger.error "Search failed" w)).
Proof.
  unfold OpenSearchService.search, try_catch, bind, opensearch_client.search,
    opensearch_client.request.
  destruct (os_up (opensearch w)) eqn:E; [|reflexivity].
  simpl. now rewrite opensearch_eta, set_opensearch_same.
Qed.

(** A write to the cache never throws. *)
Lemma RedisService_set_total (key : string) (v : value) (ttl : option Z) (w : World) :
  exists b, fst (RedisService.set key v ttl w) = Ok b.
Proof.
  unfold RedisService.set, try_catch, bind.
  destruct (match ttl with
            | Some t => if t =? 0 then ioredis.set key v else ioredis.setex key t v
            | None => ioredis.set key v
            end w) as [[[]|e] w']; simpl; eauto.
Qed.

Lemma setSearchResult_total (config : Config) (tenantId query : string)
    (filters : Filters) (offset limit : Z) (result : SearchResponse) (w : World) :
  fst (CacheService.setSearchResult config tenantId query filters offset limit
         result w) = Ok tt.
Proof.
  unfold CacheService.setSearchResult, bind.
  destruct (RedisService_set_total
              (CacheService.getSearchKey tenantId query filters offset limit)
              (VSearch result) (Some (cache_searchTtlSeconds config)) w) as [b Hb].
  destruct (RedisService.set _ _ _ w) as [r w']. simpl in Hb. now subst r.
Qed.
Lemma search_route_down
    (config : Config) (engine : gmap string DocumentIndex -> SearchBody -> SearchHits)
    (tenantId : string) (raw : RawQuery) (w : World) :
  unreachable (redis w) ->
  Js.truthy_str tenantId = true ->
  exists w',
    SearchRoutes.get config engine (Some tenantId) raw w =
      (Ok (match SearchRoutes.SearchQuerySchema raw with
           | None => Next (AppError 400 SearchRoutes.validation_message)
           | Some data =>
               answer_of_engine engine tenantId (SearchRoutes.buildQuery data)
                 (opensearch w)
           end), w') /\
    redis w' = redis w /\
    opensearch w' = opensearch w /\
    (SearchRoutes.SearchQuerySchema raw <> None ->
     metrics w' = (metrics w ++ [CacheMiss "search"])%list).
Proof.
  intros Hdown Ht.
  unfold SearchRoutes.get, try_catch. cbn [Js.truthy_ostr]. rewrite Ht.
  cbn [negb].
  destruct (SearchRoutes.SearchQuerySchema raw) as [data|].
  2: { eexists. split; [reflexivity|]. repeat split; trivial. congruence. }
  rewrite !str_or_some.
  unfold bind at 1. rewrite getSearchResult_down by exact Hdown.
  unfold bind at 1. rewrite search_run.
  cbn [redis opensearch snd logger.error logger.log
       metricsService.recordCacheMiss metricsService.record].
  unfold answer_of_engine.
  destruct (os_up (opensearch w)) eqn:Eo.
  - cbv zeta. unfold bind at 1. rewrite setSearchResult_down by exact Hdown.
    cbn. eexists. split; [reflexivity|]. cbn. repeat split; reflexivity.
  - cbn. eexists. split; [reflexivity|]. cbn. repeat split; reflexivity.
Qed.

(** On a cold cache the route answers from the engine as well. *)
Lemma search_route_cold
    (config : Config) (engine : gmap string DocumentIndex -> SearchBody -> SearchHits)
    (tenantId : string) (raw : RawQuery) (w : World) :
  redis w = {| redis_up := true; redis_faults := []; redis_data := ∅ |} ->
  Js.truthy_str tenantId = true ->
  fst (SearchRoutes.get config engine (Some tenantId) raw w) =
  Ok (match SearchRoutes.SearchQuerySchema raw with
      | None => Next (AppError 400 SearchRoutes.validation_message)
      | Some data =>
          answer_of_engine engine tenantId (SearchRoutes.buildQuery data)
            (opensearch w)
      end).
Proof.
  intros Hcold Ht.
  unfold SearchRoutes.get, try_catch. cbn [Js.truthy_ostr]. rewrite Ht.
  cbn [negb].
  destruct (SearchRoutes.SearchQuerySchema raw) as [data|]; [|reflexivity].
  rewrite !str_or_some.
  unfold bind at 1. unfold CacheService.getSearchResult at 1. unfold bind at 1.
  rewrite RedisService_get_up by now rewrite Hcold.
  rewrite Hcold. cbn [redis_data]. unfold ioredis.visible.
  rewrite lookup_empty.
  cbn [CacheService.truthy metricsService.recordCacheMiss metricsService.record
       bind ret].
  unfold bind at 1. rewrite search_run.
  cbn [opensearch]. unfold answer_of_engine.
  destruct (os_up (opensearch w)) eqn:Eo; [|reflexivity].
  cbv zeta. unfold bind at 1.
  match goal with
  | |- context [CacheService.setSearchResult ?c ?t ?q ?f ?o ?l ?r ?w0] =>
      pose proof (setSearchResult_total c t q f o l r w0) as Hset;
      destruct (CacheService.setSearchResult c t q f o l r w0) as [rs ws]
  end.
  simpl in Hset. subst rs. reflexivity.
Qed.

(** A read of the search cache never throws. *)
Lemma getSearchResult_total (tenantId query : string) (filters : Filters)
    (offset limit : Z) (w : World) :
  exists cached w',
    CacheService.getSearchResult tenantId query filters offset limit w =
    (Ok cached, w').
Proof.
  unfold CacheService.getSearchResult. unfold bind at 1.
  rewrite RedisService_get_run.
  destruct (ioredis.fails (redis w)); [cbn; eauto|].
  destruct (ioredis.visible _ _ _) as [v|]; [|cbn; eauto].
  destruct (CacheService.truthy (Some v)); cbn; eauto.
Qed.

(** Whatever Redis holds and whichever of its commands fail, the route never
    throws, and an error it hands on is the validation error or the
    engine's. *)
Lemma search_route_errors
    (config : Config) (engine : gmap string DocumentIndex -> SearchBody -> SearchHits)
    (tenantId : string) (raw : RawQuery) (w : World) :
  Js.truthy_str tenantId = true ->
  exists r w',
    SearchRoutes.get config engine (Some tenantId) raw w = (Ok r, w') /\
    forall e, r = Next e ->
      e = AppError 400 SearchRoutes.validation_message \/
      e = opensearch_client.connection_error.
Proof.
  intros Ht.
  unfold SearchRoutes.get, try_catch. cbn [Js.truthy_ostr]. rewrite Ht.
  cbn [negb].
  destruct (SearchRoutes.SearchQuerySchema raw) as [data|].
  2: { eexists _, _. split; [reflexivity|]. intros e [= <-]. now left. }
  rewrite !str_or_some.
  assert (Hperform : forall w0,
    exists r w',
      (let (r0, w1) :=
         bind (OpenSearchService.search engine tenantId (SearchRoutes.buildQuery data))
           (fun found =>
              bind (CacheService.setSearchResult config tenantId
                      (q (SearchRoutes.buildQuery data))
                      (SearchRoutes.filtersOf (SearchRoutes.buildQuery data))
                      (Js.num_or (sq_offset (SearchRoutes.buildQuery data)) 0)
                      (Js.num_or (sq_limit (SearchRoutes.buildQuery data)) 10)
                      {| resp_tenantId := tenantId;
                         resp_query := q (SearchRoutes.buildQuery data);
                         resp_offset := Js.num_or (sq_offset (SearchRoutes.buildQuery data)) 0;
                         resp_limit := Js.num_or (sq_limit (SearchRoutes.buildQuery data)) 10;
                         resp_total := snd found;
                         resp_results := fst found |})
                (fun _ => bind (logger.info "Search performed")
                   (fun _ => ret (Sent 200 (BJson (VSearch
                      {| resp_tenantId := tenantId;
                         resp_query := q (SearchRoutes.buildQuery data);
                         resp_offset := Js.num_or (sq_offset (SearchRoutes.buildQuery data)) 0;
                         resp_limit := Js.num_or (sq_limit (SearchRoutes.buildQuery data)) 10;
                         resp_total := snd found;
                         resp_results := fst found |})))))) w0 in
       match r0 with
       | Ok a => (Ok a, w1)
       | Throw e => ret (Next e) w1
       end) = (Ok r, w') /\
      forall e, r = Next e ->
        e = AppError 400 SearchRoutes.validation_message \/
        e = opensearch_client.connection_error).
  { intros w0. unfold bind at 1. rewrite search_run.
    destruct (os_up (opensearch w0)).
    - cbv zeta. unfold bind at 1.
      match goal with
      | |- context [CacheService.setSearchResult ?c ?t ?q ?f ?o ?l ?r ?w1] =>
          pose proof (setSearchResult_total c t q f o l r w1) as Hset;
          destruct (CacheService.setSearchResult c t q f o l r w1) as [rs ws]
      end.
      cbn in Hset. subst rs. cbn.
      eexists _, _. split; [reflexivity|]. discriminate.
    - cbn. eexists _, _. split; [reflexivity|]. intros e [= <-]. now right. }
  destruct (getSearchResult_total tenantId (q (SearchRoutes.buildQuery data))
              (SearchRoutes.filtersOf (SearchRoutes.buildQuery data))
              (Js.num_or (sq_offset (SearchRoutes.buildQuery data)) 0)
              (Js.num_or (sq_limit (SearchRoutes.buildQuery data)) 10) w)
    as (cached & w1 & Hc).
  unfold bind at 1. rewrite Hc.
  destruct cached as [v|]; [|apply Hperform].
  destruct (CacheService.truthy (Some v)); [|apply Hperform].
  eexists _, _. split; [reflexivity|]. discriminate.
Qed.

(** C5. With every Redis call failing, the read of the search cache is a
    miss and does not throw, the write of the search cache does not throw,
    and the search route answers what it answers on a cold cache: the
    response built from the engine's hits for the plan of the request. The
    only errors it can hand on are the validation error of the request and
    the engine's own, and that holds whatever Redis holds and whichever of
    its commands fail; Redis and the index are left as they were. *)
Theorem search_fails_open_on_cache_outage
    (config : Config) (engine : gmap string DocumentIndex -> SearchBody -> SearchHits)
    (tenantId : string) (raw : RawQuery) (w : World) :
  unreachable (redis w) ->
  Js.truthy_str tenantId = true ->
  let out := SearchRoutes.get config engine (Some tenantId) raw w in
  (forall query filters offset limit,
     fst (CacheService.getSearchResult tenantId query filters offset limit w) =
     Ok None) /\
  (forall query filters offset limit result,
     fst (CacheService.setSearchResult config tenantId query filters offset
            limit result w) = Ok tt) /\
  fst out =
    Ok (match SearchRoutes.SearchQuerySchema raw with
        | None => Next (AppError 400 SearchRoutes.validation_message)
        | Some data =>
            answer_of_engine engine tenantId (SearchRoutes.buildQuery data)
              (opensearch w)
        end) /\
  fst out =
    fst (SearchRoutes.get config engine (Some tenantId) raw
           (set_redis {| redis_up := true; redis_faults := [];
                         redis_data := ∅ |} w)) /\
  (forall w0,
   exists r,
     fst (SearchRoutes.get config engine (Some tenantId) raw w0) = Ok r /\
     forall e, r = Next e ->
       e = AppError 400 SearchRoutes.validation_message \/
       e = opensearch_client.connection_error) /\
  (SearchRoutes.SearchQuerySchema raw <> None ->
   metrics (snd out) = (metrics w ++ [CacheMiss "search"])%list) /\
  redis (snd out) = redis w /\
  opensearch (snd out) = opensearch w.
Proof.
  intros Hdown Ht out.
  destruct (search_route_down config engine tenantId raw w Hdown Ht)
    as (w' & Hrun & Hredis & Hos & Hmetrics).
  subst out. rewrite Hrun. cbn [fst snd].
  split; [|split; [|split; [|split; [|split]]]].
  - intros. now rewrite getSearchResult_down.
  - intros. apply setSearchResult_total.
  - reflexivity.
  - now rewrite search_route_cold.
  - intros w0.
    destruct (search_route_errors config engine tenantId raw w0 Ht)
      as (r & w1 & -> & Herr).
    now exists r.
  - auto.
Qed.

Lemma search_fails_open_on_cache_outage_witness :
  fst (SearchRoutes.get Sample.cfg5 Sample.engine (Some "tenant-123")
         (Sample.raw (Some "payment") None None)
         (Sample.world 1700000000000 false)) =
  Ok (Sent 200
        (BJson (VSearch {| resp_tenantId := "tenant-123";
                           resp_query := "payment";
                           resp_offset := 0;
                           resp_limit := 10;
                           resp_total := 0;
                           resp_results := [] |}))).
Proof.
  pose proof (search_fails_open_on_cache_outage Sample.cfg5 Sample.engine
                "tenant-123" (Sample.raw (Some "payment") None None)
                (Sample.world 1700000000000 false) (conj eq_refl eq_refl)
                eq_refl)
    as (_ & _ & H & _).
  rewrite H. reflexivity.
Defined.

(** ** Reading a document *)

Lemma getDocument_run (tenantId docId : string) (w : World) :
  os_up (opensearch w) = true ->
  OpenSearchService.getDocument tenantId docId w =
  match os_docs (opensearch w) !! OpenSearchService.index_id tenantId docId with
  | Some source =>
      if String.eqb (tenant_id source) tenantId
      then (Ok (Some (OpenSearchService.mapIndexToDocument source)), w)
      else (Ok None, snd (logger.warn "Tenant mismatch on document retrieval" w))
  | None => (Ok None, w)
  end.
Proof.
  intros Hup.
  unfold OpenSearchService.getDocument, try_catch, bind, opensearch_client.get,
    opensearch_client.request.
  rewrite Hup.
  destruct (os_docs (opensearch w) !! OpenSearchService.index_id tenantId docId)
    as [source|]; cbn; rewrite opensearch_eta, set_opensearch_same by exact Hup.
  - now destruct (String.eqb (tenant_id source) tenantId).
  - reflexivity.
Qed.

(** A read of the document cache that finds nothing, the command failing
    or not. *)
Lemma getDocument_cache_miss (tenantId docId : string) (w : World) :
  ioredis.visible (clock w) (redis_data (redis w))
    (CacheService.getDocumentKey tenantId docId) = None ->
  exists w1,
    CacheService.getDocument tenantId docId w = (Ok None, w1) /\
    redis_data (redis w1) = redis_data (redis w) /\
    opensearch w1 = opensearch w /\ clock w1 = clock w.
Proof.
  intros Hmiss. unfold CacheService.getDocument, bind.
  rewrite RedisService_get_run.
  destruct (ioredis.fails (redis w)).
  - cbn. eexists. repeat split; reflexivity.
  - rewrite Hmiss. cbn. eexists. repeat split; reflexivity.
Qed.

(** The route answers 404 when the cache has nothing and the index has no
    document of the tenant under the id: none at all, or one stamped with
    another tenant. Nothing is cached. *)
Lemma get_route_not_found
    (config : Config) (tenantId docId : string) (w : World) :
  Js.truthy_str tenantId = true ->
  os_up (opensearch w) = true ->
  ioredis.visible (clock w) (redis_data (redis w))
    (CacheService.getDocumentKey tenantId docId) = None ->
  match os_docs (opensearch w) !! OpenSearchService.index_id tenantId docId with
  | Some source => String.eqb (tenant_id source) tenantId = false
  | None => True
  end ->
  exists w',
    DocumentsRoutes.get config (Some tenantId) docId w =
      (Ok (Next (AppError 404 "Document not found")), w') /\
    redis_data (redis w') = redis_data (redis w) /\
    opensearch w' = opensearch w.
Proof.
  intros Ht Hup Hmiss Hdoc.
  destruct (getDocument_cache_miss tenantId docId w Hmiss)
    as (w1 & Hc & Hr1 & Ho1 & _).
  unfold DocumentsRoutes.get, try_catch. cbn [Js.truthy_ostr]. rewrite Ht.
  cbn [negb]. rewrite str_or_some.
  unfold bind at 1. rewrite Hc. unfold bind at 1.
  rewrite getDocument_run by now rewrite Ho1.
  rewrite Ho1.
  destruct (os_docs (opensearch w) !! OpenSearchService.index_id tenantId docId)
    as [s|].
  - rewrite Hdoc. cbn. eexists. repeat split; cbn; congruence.
  - cbn. eexists. repeat split; cbn; congruence.
Qed.

(** C7. A document found in the index under the requested id but stamped
    with another tenant is answered exactly as a document that is not
    there: the service returns [null], the route hands on the error 404
    "Document not found", the error handler sends it with that one message,
    and nothing is cached. *)
Theorem foreign_document_is_not_found
    (config : Config) (tenantId docId : string) (source : DocumentIndex) (w : World) :
  Js.truthy_str tenantId = true ->
  os_up (opensearch w) = true ->
  ioredis.visible (clock w) (redis_data (redis w))
    (CacheService.getDocumentKey tenantId docId) = None ->
  os_docs (opensearch w) !! OpenSearchService.index_id tenantId docId = Some source ->
  tenant_id source <> tenantId ->
  let absent :=
    set_opensearch
      {| os_up := true;
         os_docs := delete (OpenSearchService.index_id tenantId docId)
                      (os_docs (opensearch w)) |} w in
  let out := DocumentsRoutes.get config (Some tenantId) docId w in
  fst (OpenSearchService.getDocument tenantId docId w) = Ok None /\
  fst (OpenSearchService.getDocument tenantId docId absent) = Ok None /\
  fst out = Ok (Next (AppError 404 "Document not found")) /\
  fst out = fst (DocumentsRoutes.get config (Some tenantId) docId absent) /\
  fst (errorHandler (AppError 404 "Document not found") (snd out)) =
    Ok (404, BError "Document not found") /\
  redis_data (redis (snd out)) = redis_data (redis w) /\
  opensearch (snd out) = opensearch w.
Proof.
  intros Ht Hup Hmiss Hsrc Hne absent out.
  assert (Heqb : String.eqb (tenant_id source) tenantId = false)
    by now apply String.eqb_neq.
  destruct (get_route_not_found config tenantId docId w Ht Hup Hmiss
              ltac:(now rewrite Hsrc)) as (w' & Hrun & Hr & Ho).
  destruct (get_route_not_found config tenantId docId absent Ht eq_refl Hmiss
              ltac:(cbn; now rewrite lookup_delete_eq)) as (w'' & Hrun' & _).
  subst out. rewrite Hrun, Hrun'. cbn [fst snd].
  rewrite !getDocument_run by (trivial; reflexivity).
  rewrite Hsrc, Heqb. subst absent. cbn [opensearch set_opensearch os_docs].
  rewrite lookup_delete_eq. repeat split; trivial.
Qed.

Lemma foreign_document_is_not_found_witness :
  fst (DocumentsRoutes.get Sample.cfg5 (Some "a") "b_c"
         (Sample.with_index [Sample.indexed "a_b" "c" "Title" "Content"]
            (Sample.world 1700000000000 true))) =
  Ok (Next (AppError 404 "Document not found")).
Proof.
  apply (foreign_document_is_not_found Sample.cfg5 "a" "b_c"
           (Sample.indexed "a_b" "c" "Title" "Content")
           (Sample.with_index [Sample.indexed "a_b" "c" "Title" "Content"]
              (Sample.world 1700000000000 true))).
  - reflexivity.
  - reflexivity.
  - reflexivity.
  - reflexivity.
  - discriminate.
Defined.

(** ** Cache keys *)

Lemma length_app (s1 s2 : string) :
  String.length (s1 +:+ s2) = (String.length s1 + String.length s2)%nat.
Proof. induction s1 as [|c s1 IH]; simpl; [reflexivity | now rewrite IH]. Qed.

(** Two strings of the same length followed by the same kind of tail are
    equal as soon as the wholes are. *)
Lemma app_inj_length (s1 s2 x1 x2 : string) :
  String.length s1 = String.length s2 ->
  s1 +:+ x1 = s2 +:+ x2 -> s1 = s2 /\ x1 = x2.
Proof.
  revert s2. induction s1 as [|c s1 IH]; intros [|d s2]; simpl; try discriminate.
  - auto.
  - intros [= Hl] [= -> H]. destruct (IH s2 Hl H) as [-> ->]. auto.
Qed.

Lemma length_hex (n : nat) (x : Z) : String.length (sha256.hex n x) = n.
Proof. induction n as [|n IH]; simpl; [reflexivity | now rewrite IH]. Qed.

(** A digest is 64 hexadecimal characters. *)
Lemma length_hashString (input : string) :
  String.length (hash.hashString input) = 64%nat.
Proof.
  unfold hash.hashString, sha256.digest_hex, sha256.digest_words.
  cbv zeta. cbn [List.fold_right].
  rewrite !length_app, !length_hex. reflexivity.
Qed.

Lemma getSearchKey_tenant (t1 t2 q1 q2 : string) (f1 f2 : Filters)
    (o1 o2 l1 l2 : Z) :
  CacheService.getSearchKey t1 q1 f1 o1 l1 = CacheService.getSearchKey t2 q2 f2 o2 l2 ->
  t1 = t2.
Proof.
  unfold CacheService.getSearchKey, hash.hashQuery. intros H.
  apply String.app_inj in H.
  pose proof (f_equal String.length H) as Hl.
  rewrite !length_app, !length_hashString in Hl.
  apply app_inj_length in H; [tauto | simpl in Hl; lia].
Qed.

(** C9. The search key is a function of its arguments: equal arguments give
    equal keys. Two tenants never share a key: with the other arguments
    equal, and in fact whatever the other arguments are, the keys of two
    distinct tenant ids differ. The key is the namespace, the tenant id and
    the 64 hexadecimal characters of the digest. *)
Theorem search_key_deterministic_and_tenant_scoped
    (t1 t2 q1 q2 : string) (f1 f2 : Filters) (o1 o2 l1 l2 : Z) :
  (t1 = t2 -> q1 = q2 -> f1 = f2 -> o1 = o2 -> l1 = l2 ->
   CacheService.getSearchKey t1 q1 f1 o1 l1 =
   CacheService.getSearchKey t2 q2 f2 o2 l2) /\
  (t1 <> t2 ->
   CacheService.getSearchKey t1 q1 f1 o1 l1 <>
   CacheService.getSearchKey t2 q1 f1 o1 l1) /\
  (t1 <> t2 ->
   CacheService.getSearchKey t1 q1 f1 o1 l1 <>
   CacheService.getSearchKey t2 q2 f2 o2 l2) /\
  (exists digest,
     CacheService.getSearchKey t1 q1 f1 o1 l1 = "search:" +:+ t1 +:+ ":" +:+ digest /\
     String.length digest = 64%nat).
Proof.
  split; [|split; [|split]].
  - now intros -> -> -> -> ->.
  - intros Hne H. apply Hne. eapply getSearchKey_tenant, H.
  - intros Hne H. apply Hne. eapply getSearchKey_tenant, H.
  - eexists. split; [reflexivity|]. apply length_hashString.
Qed.

Lemma search_key_deterministic_and_tenant_scoped_witness :
  CacheService.getSearchKey "tenant-123" "payment"
    {| f_tag := Some "payments"; f_author := None; f_from := None; f_to := None |} 0 10 <>
  CacheService.getSearchKey "tenant-456" "payment"
    {| f_tag := Some "payments"; f_author := None; f_from := None; f_to := None |} 0 10.
Proof.
  apply (search_key_deterministic_and_tenant_scoped "tenant-123" "tenant-456"
           "payment" "payment"
           {| f_tag := Some "payments"; f_author := None; f_from := None;
              f_to := None |}
           {| f_tag := Some "payments"; f_author := None; f_from := None;
              f_to := None |} 0 0 10 10).
  discriminate.
Defined.

(** ** Invalidation on mutation *)

Lemma del_keys_keeps_none (now : Z) (keys : list string) (d : gmap string Entry)
    (key : string) :
  d !! key = None -> snd (ioredis.del_keys now keys d) !! key = None.
Proof.
  revert d. induction keys as [|k ks IH]; intros d Hd; simpl; [exact Hd|].
  specialize (IH (delete k d)).
  destruct (ioredis.del_keys now ks (delete k d)) as [m d']. simpl in *.
  apply IH. destruct (decide (k = key)) as [->|Hne].
  - apply lookup_delete_eq.
  - now rewrite lookup_delete_ne.
Qed.

Lemma RedisService_del_up (key : string) (w : World) :
  reachable (redis w) ->
  RedisService.del key w =
  (Ok true,
   set_redis {| redis_up := true; redis_faults := [];
                redis_data := delete key (redis_data (redis w)) |} w).
Proof.
  intros Hup.
  unfold RedisService.del, try_catch, bind, ioredis.del, ret.
  rewrite command_reachable by exact Hup. reflexivity.
Qed.

Lemma RedisService_delPattern_up (pattern : string) (w : World) :
  reachable (redis w) ->
  let removed :=
    ioredis.del_keys (clock w)
      (ioredis.matching (clock w) pattern (redis_data (redis w)))
      (redis_data (redis w)) in
  RedisService.delPattern pattern w =
  (Ok (fst removed),
   set_redis {| redis_up := true; redis_faults := [];
                redis_data := snd removed |} w).
Proof.
  destruct w as [c [up fl d] o lg mt en]. intros [Hup Hfl]. cbn in *. subst.
  unfold RedisService.delPattern, try_catch, bind, ioredis.keys, ioredis.del,
    ioredis.command.
  cbn.
  destruct (ioredis.matching c pattern d) as [|k ks] eqn:Ek; cbn.
  - reflexivity.
  - now destruct (ioredis.del_keys c ks (delete k d)) as [m d'].
Qed.

Lemma invalidateDocument_up (tenantId docId : string) (w : World) :
  reachable (redis w) ->
  exists w',
    CacheService.invalidateDocument tenantId docId w = (Ok tt, w') /\
    reachable (redis w') /\
    redis_data (redis w') !! CacheService.getDocumentKey tenantId docId = None /\
    opensearch w' = opensearch w.
Proof.
  intros Hup. unfold CacheService.invalidateDocument, bind.
  rewrite RedisService_del_up by exact Hup. cbn.
  eexists. split; [reflexivity|]. cbn. repeat split; trivial.
  apply lookup_delete_eq.
Qed.

Lemma invalidateTenantSearches_keeps_none (tenantId key : string) (w : World) :
  reachable (redis w) ->
  redis_data (redis w) !! key = None ->
  exists w',
    CacheService.invalidateTenantSearches tenantId w = (Ok tt, w') /\
    reachable (redis w') /\
    redis_data (redis w') !! key = None /\
    opensearch w' = opensearch w.
Proof.
  intros Hup Hnone. unfold CacheService.invalidateTenantSearches, bind.
  rewrite (RedisService_delPattern_up ("search:" +:+ tenantId +:+ ":*") w Hup).
  cbn. eexists. split; [reflexivity|]. cbn. repeat split; trivial.
  now apply del_keys_keeps_none.
Qed.

Lemma deleteDocument_total (tenantId docId : string) (w : World) :
  os_up (opensearch w) = true ->
  exists b w',
    OpenSearchService.deleteDocument tenantId docId w = (Ok b, w') /\
    redis w' = redis w /\
    os_up (opensearch w') = true /\
    os_docs (opensearch w') !! OpenSearchService.index_id tenantId docId = None.
Proof.
  intros Hup.
  unfold OpenSearchService.deleteDocument, try_catch, bind,
    opensearch_client.delete, opensearch_client.request.
  rewrite Hup.
  destruct (os_docs (opensearch w) !! OpenSearchService.index_id tenantId docId)
    eqn:E; cbn.
  - eexists _, _. split; [reflexivity|]. cbn. repeat split.
    apply lookup_delete_eq.
  - eexists _, _. split; [reflexivity|]. cbn. auto.
Qed.

(** The deletion route does what the creation route leaves out: once it has
    answered, the document's cache entry is gone, whether or not the
    document was in the index. *)
Lemma delete_route_invalidates (tenantId docId : string) (w : World) :
  Js.truthy_str tenantId = true ->
  os_up (opensearch w) = true ->
  reachable (redis w) ->
  exists status w',
    DocumentsRoutes.delete (Some tenantId) docId w =
      (Ok (Sent 200 (BStatus docId tenantId status)), w') /\
    (forall now,
       ioredis.visible now (redis_data (redis w'))
         (CacheService.getDocumentKey tenantId docId) = None) /\
    os_up (opensearch w') = true /\
    os_docs (opensearch w') !! OpenSearchService.index_id tenantId docId = None.
Proof.
  intros Ht Hos Hup.
  unfold DocumentsRoutes.delete, try_catch. cbn [Js.truthy_ostr]. rewrite Ht.
  cbn [negb]. rewrite str_or_some.
  destruct (deleteDocument_total tenantId docId w Hos)
    as (b & w1 & Hdel & Hr1 & Hos1 & Hgone).
  unfold bind at 1. rewrite Hdel.
  destruct (invalidateDocument_up tenantId docId w1 ltac:(now rewrite Hr1))
    as (w2 & Hinv & Hup2 & Hnone2 & Ho2).
  unfold bind at 1. rewrite Hinv.
  destruct (invalidateTenantSearches_keeps_none tenantId
              (CacheService.getDocumentKey tenantId docId) w2 Hup2 Hnone2)
    as (w3 & Hinv3 & Hup3 & Hnone3 & Ho3).
  unfold bind at 1. rewrite Hinv3. cbn.
  eexists _, _. split; [reflexivity|]. cbn. split; [|split].
  - intros now. unfold ioredis.visible. now rewrite Hnone3.
  - now rewrite Ho3, Ho2.
  - now rewrite Ho3, Ho2.
Qed.

(** Hence a read that follows a deletion finds nothing, at any later
    instant. *)
Lemma delete_then_get_not_found
    (config : Config) (tenantId docId : string) (w : World) (later : Z) :
  Js.truthy_str tenantId = true ->
  os_up (opensearch w) = true ->
  reachable (redis w) ->
  fst (at_time later (DocumentsRoutes.get config (Some tenantId) docId)
         (snd (DocumentsRoutes.delete (Some tenantId) docId w))) =
  Ok (Next (AppError 404 "Document not found")).
Proof.
  intros Ht Hos Hup.
  destruct (delete_route_invalidates tenantId docId w Ht Hos Hup)
    as (st & w' & Hrun & Hcache & Hos' & Hgone).
  rewrite Hrun. cbn [snd]. unfold at_time.
  destruct (get_route_not_found config tenantId docId (set_clock later w') Ht
              Hos' (Hcache later) ltac:(cbn; now rewrite Hgone))
    as (w'' & -> & _).
  reflexivity.
Qed.

Lemma del_keys_frame (now : Z) (keys : list string) (d : gmap string Entry)
    (key : string) :
  ~ In key keys -> snd (ioredis.del_keys now keys d) !! key = d !! key.
Proof.
  revert d. induction keys as [|k ks IH]; intros d Hnot; simpl; [reflexivity|].
  specialize (IH (delete k d)).
  destruct (ioredis.del_keys now ks (delete k d)) as [m d']. simpl in *.
  rewrite IH by tauto. apply lookup_delete_ne. tauto.
Qed.

Lemma matching_glob (now : Z) (pattern key : string) (d : gmap string Entry) :
  In key (ioredis.matching now pattern d) -> ioredis.glob pattern key = true.
Proof.
  unfold ioredis.matching. intros H. apply filter_In in H as [_ H].
  now apply andb_prop in H as [H _].
Qed.

(** The pattern of a tenant's search keys matches no document key. *)
Lemma search_pattern_misses_documents (tenantId t' docId : string) :
  ioredis.glob ("search:" +:+ tenantId +:+ ":*")
    (CacheService.getDocumentKey t' docId) = false.
Proof. reflexivity. Qed.

Lemma indexDocument_redis (tenantId : string) (document : Document) (w : World) :
  redis (snd (OpenSearchService.indexDocument tenantId document w)) = redis w.
Proof.
  unfold OpenSearchService.indexDocument, try_catch, bind, Date_now,
    OpenSearchService.generateDocId, opensearch_client.index,
    opensearch_client.request.
  destruct (Js.truthy_ostr (doc_id_opt document)); cbn;
    destruct (os_up (opensearch w)); reflexivity.
Qed.

(** Under any schedule of faults, a deletion by pattern leaves alone the
    keys that the pattern does not match. *)
Lemma delPattern_frame (pattern key : string) (w : World) :
  ioredis.glob pattern key = false ->
  redis_data (redis (snd (RedisService.delPattern pattern w))) !! key =
  redis_data (redis w) !! key.
Proof.
  intros Hglob.
  destruct w as [c [up fl d] o lg mt en].
  unfold RedisService.delPattern, try_catch, bind, ioredis.keys, ioredis.del,
    ioredis.command.
  cbn [redis redis_up redis_faults redis_data clock].
  destruct (ioredis.fails {| redis_up := up; redis_faults := fl; redis_data := d |});
    [reflexivity|].
  cbn [set_redis redis redis_up redis_faults redis_data clock fst snd].
  pose proof (del_keys_frame c (ioredis.matching c pattern d) d key) as Hframe.
  assert (Hnot : ~ In key (ioredis.matching c pattern d)).
  { intros H. apply matching_glob in H. congruence. }
  specialize (Hframe Hnot).
  destruct (ioredis.matching c pattern d) as [|k ks]; [reflexivity|].
  destruct (ioredis.fails _); [reflexivity|].
  cbn [set_redis redis redis_up redis_faults redis_data clock].
  destruct (ioredis.del_keys c (k :: ks) d) as [m d'].
  exact Hframe.
Qed.

Lemma invalidateTenantSearches_frame (tenantId t' docId : string) (w : World) :
  redis_data (redis (snd (CacheService.invalidateTenantSearches tenantId w))) !!
    CacheService.getDocumentKey t' docId =
  redis_data (redis w) !! CacheService.getDocumentKey t' docId.
Proof.
  unfold CacheService.invalidateTenantSearches, bind.
  pose proof (delPattern_frame ("search:" +:+ tenantId +:+ ":*")
                (CacheService.getDocumentKey t' docId) w
                (search_pattern_misses_documents tenantId t' docId)) as H.
  now destruct (RedisService.delPattern _ w) as [[n|e] w1].
Qed.

(** The creation route never touches a document's cache entry: whatever it
    answers, the entry is after it what it was before. *)
Lemma post_route_keeps_document_cache
    (context : option string) (input : DocumentInput) (t' docId : string) (w : World) :
  redis_data (redis (snd (DocumentsRoutes.post context input w))) !!
    CacheService.getDocumentKey t' docId =
  redis_data (redis w) !! CacheService.getDocumentKey t' docId.
Proof.
  unfold DocumentsRoutes.post, try_catch.
  destruct (negb (Js.truthy_ostr context)); [reflexivity|].
  destruct (negb (DocumentsRoutes.DocumentSchema input)); [reflexivity|].
  unfold bind at 1. unfold Date_now at 1. unfold bind at 1. unfold Date_now at 1.
  unfold bind at 1.
  match goal with
  | |- context [OpenSearchService.indexDocument ?t ?d w] =>
      pose proof (indexDocument_redis t d w) as Hix;
      destruct (OpenSearchService.indexDocument t d w) as [[[]|e] w1]
  end; cbn in Hix.
  - unfold bind at 1.
    match goal with
    | |- context [CacheService.invalidateTenantSearches ?t w1] =>
        pose proof (invalidateTenantSearches_frame t t' docId w1) as Hfr;
        destruct (CacheService.invalidateTenantSearches t w1) as [[[]|e] w2]
    end; cbn in Hfr |- *; now rewrite Hfr, Hix.
  - cbn. now rewrite Hix.
Qed.

(** C2. The deletion route removes the document's cache entry, so that a
    later read finds nothing ([delete_then_get_not_found]); the creation
    route never touches the entry ([post_route_keeps_document_cache]). Tenant [t1] indexes [doc-1], reads
    it (which caches it), indexes [doc-1] again with a new title and
    content, and reads it one second later: the index holds the new
    document, the read is served the cached old one. *)
Theorem reindexed_document_is_read_stale :
  let tenant := Some "t1" in
  let w1 :=
    snd (at_time 1700000000000
           (DocumentsRoutes.post tenant (Sample.input (Some "doc-1") "A" "B"))
           (Sample.world 0 true)) in
  let w2 :=
    snd (at_time 1700000001000
           (DocumentsRoutes.get default_config tenant "doc-1") w1) in
  let reindex :=
    at_time 1700000002000
      (DocumentsRoutes.post tenant (Sample.input (Some "doc-1") "A2" "B2")) w2 in
  let read :=
    at_time 1700000003000
      (DocumentsRoutes.get default_config tenant "doc-1") (snd reindex) in
  fst reindex = Ok (Sent 201 (BStatus "doc-1" "t1" "indexed")) /\
  ix_title <$> os_docs (opensearch (snd reindex)) !! "t1_doc-1" = Some "A2" /\
  exists d,
    fst read = Ok (Sent 200 (BJson (VDoc d))) /\
    doc_title d = "A" /\ doc_content d = "B".
Proof.
  vm_compute. split; [reflexivity|]. split; [reflexivity|].
  eexists. split; [reflexivity|]. split; reflexivity.
Qed.

(** ** Index ids *)

(** Within one tenant, two document ids have two index ids. *)
Lemma index_id_inj_same_tenant (tenantId d1 d2 : string) :
  OpenSearchService.index_id tenantId d1 = OpenSearchService.index_id tenantId d2 ->
  d1 = d2.
Proof.
  unfold OpenSearchService.index_id. intros H.
  apply String.app_inj in H. now apply String.app_inj in H.
Qed.

(** Index ids are distinct for distinct pairs as long as the tenant ids
    have no underscore. *)
Lemma index_id_inj_no_underscore (t1 t2 d1 d2 : string) :
  no_underscore t1 = true -> no_underscore t2 = true ->
  OpenSearchService.index_id t1 d1 = OpenSearchService.index_id t2 d2 ->
  t1 = t2 /\ d1 = d2.
Proof.
  unfold OpenSearchService.index_id.
  revert t2. induction t1 as [|c t1 IH]; intros [|c2 t2]; cbn.
  - intros _ _ H. injection H as H. auto.
  - intros _ H2 H. injection H as Hc _. subst c2. discriminate.
  - intros H1 _ H. injection H as Hc _. subst c. discriminate.
  - intros H1 H2 H. injection H as Hc H. subst c2.
    apply andb_prop in H1 as [_ H1]. apply andb_prop in H2 as [_ H2].
    destruct (IH t2 H1 H2 H) as [Ht Hd]. subst. auto.
Qed.

(** C10. Two distinct pairs of a valid tenant id and a document id with the
    same index id: [("a", "b_c")] and [("a_b", "c")]. After tenant [a_b]
    has indexed its document [c], tenant [a] deleting [b_c] is answered
    "deleted" and the document of [a_b] is gone; tenant [a] indexing [b_c]
    replaces it by a document of its own. *)
Theorem index_ids_collide_across_tenants :
  let w1 :=
    snd (at_time 1700000000000
           (DocumentsRoutes.post (Some "a_b") (Sample.input (Some "c") "T" "B"))
           (Sample.world 0 true)) in
  let removal :=
    at_time 1700000001000 (DocumentsRoutes.delete (Some "a") "b_c") w1 in
  let overwrite :=
    at_time 1700000001000
      (DocumentsRoutes.post (Some "a") (Sample.input (Some "b_c") "U" "B")) w1 in
  let read w :=
    fst (at_time 1700000002000
           (DocumentsRoutes.get default_config (Some "a_b") "c") w) in
  tenant.TenantIdSchema "a" = true /\
  tenant.TenantIdSchema "a_b" = true /\
  ("a", "b_c") <> ("a_b", "c") /\
  OpenSearchService.index_id "a" "b_c" = OpenSearchService.index_id "a_b" "c" /\
  (exists d, read w1 = Ok (Sent 200 (BJson (VDoc d))) /\ doc_title d = "T") /\
  fst removal = Ok (Sent 200 (BStatus "b_c" "a" "deleted")) /\
  os_docs (opensearch (snd removal)) !! "a_b_c" = None /\
  read (snd removal) = Ok (Next (AppError 404 "Document not found")) /\
  fst overwrite = Ok (Sent 201 (BStatus "b_c" "a" "indexed")) /\
  tenant_id <$> os_docs (opensearch (snd overwrite)) !! "a_b_c" = Some "a" /\
  read (snd overwrite) = Ok (Next (AppError 404 "Document not found")).
Proof.
  vm_compute. repeat split; try discriminate.
  eexists. split; reflexivity.
Qed.

(** * Further properties *)

(** ** The plan: filters *)

Lemma set_value_some (o : option string) (v : string) :
  set_value o = Some v <-> o = Some v /\ v <> EmptyString.
Proof.
  unfold set_value. destruct o as [[|c s]|]; simpl; split.
  - discriminate.
  - intros [[= <-] H]. now contradiction H.
  - intros [= <-]. split; [reflexivity | discriminate].
  - now intros [[= <-] _].
  - discriminate.
  - now intros [? _].
Qed.

(** Every filter of the request that is set is one more clause of the filter
    list, next to the tenant clause; none of them goes to the must list,
    which always has the one clause of the query text. A filter that is the
    empty string is no filter. *)
Theorem search_filters_narrow (tenantId : string) (query : SearchQuery) :
  let body := OpenSearchService.searchBody tenantId query in
  length (must body) = 1%nat /\
  (forall c, In c (must body) -> c = MatchAll \/ exists l, c = BoolShould l) /\
  (forall v, In (Term "tags" v) (filter body) <-> set_value (sq_tag query) = Some v) /\
  (forall v, In (Term "metadata.author" v) (filter body) <->
             set_value (sq_author query) = Some v) /\
  (forall field gte lte,
     In (Range field gte lte) (filter body) <->
     field = "created_at" /\
     gte = set_value (sq_from query) /\ lte = set_value (sq_to query) /\
     (gte <> None \/ lte <> None)) /\
  (length (filter body) <= 4)%nat.
Proof.
  intros body. subst body. rewrite searchBody_filter.
  unfold OpenSearchService.searchBody; cbn [must].
  unfold set_value.
  split; [|split; [|split; [|split; [|split]]]].
  - now destruct (_ && _).
  - intros c Hc. destruct (_ && _); destruct Hc as [<-|[]]; eauto.
  - intros v.
    destruct (sq_tag query) as [[|a s]|], (sq_author query) as [[|a' s']|],
      (Js.truthy_ostr (sq_from query) || Js.truthy_ostr (sq_to query));
      cbn; split; intros H; try discriminate;
      repeat (destruct H as [H|H]; try discriminate; try contradiction);
      try (injection H as <-); auto.
  - intros v.
    destruct (sq_tag query) as [[|a s]|], (sq_author query) as [[|a' s']|],
      (Js.truthy_ostr (sq_from query) || Js.truthy_ostr (sq_to query));
      cbn; split; intros H; try discriminate;
      repeat (destruct H as [H|H]; try discriminate; try contradiction);
      try (injection H as <-); auto.
  - intros field gte lte.
    destruct (sq_tag query) as [[|a s]|], (sq_author query) as [[|a' s']|],
      (sq_from query) as [[|b f]|], (sq_to query) as [[|b' t]|];
      cbn; split; intros H;
      repeat (destruct H as [H|H]; try discriminate; try contradiction);
      try (injection H as <- <- <-);
      try (destruct H as (-> & -> & -> & [H|H]); try congruence);
      repeat split; auto; try (left; discriminate); try (right; discriminate);
      auto 6.
  - destruct (Js.truthy_ostr (sq_tag query)), (Js.truthy_ostr (sq_author query)),
      (Js.truthy_ostr (sq_from query) || Js.truthy_ostr (sq_to query));
      cbn; lia.
Qed.

(** ** Result mapping: the snippet *)

Lemma append_empty_r (s : string) : s +:+ EmptyString = s.
Proof.
  induction s as [|c s IH]; [reflexivity|].
  change (String c (s +:+ EmptyString) = String c s). now f_equal.
Qed.

Lemma prefix_length (n : nat) (s : string) :
  String.length (Js.prefix n s) = Nat.min n (String.length s).
Proof.
  unfold Js.prefix. revert s. induction n as [|n IH]; intros [|c s]; simpl;
    try reflexivity. now rewrite IH.
Qed.

Lemma prefix_all (n : nat) (s : string) :
  (String.length s <= n)%nat -> Js.prefix n s = s.
Proof.
  unfold Js.prefix. revert s. induction n as [|n IH]; intros [|c s]; simpl;
    try reflexivity; try lia.
  intros H. f_equal. apply IH. lia.
Qed.

Lemma prefix_is_prefix (n : nat) (s : string) :
  exists rest, s = Js.prefix n s +:+ rest.
Proof.
  unfold Js.prefix. revert s. induction n as [|n IH]; intros [|c s].
  - now exists EmptyString.
  - now exists (String c s).
  - now exists EmptyString.
  - destruct (IH s) as [rest Hrest]. exists rest.
    change (String c s = String c (substring 0 n s +:+ rest)). now f_equal.
Qed.

Lemma snippet_cases (h : Hit) :
  OpenSearchService.snippet h =
  match fragment_of hh_content h with
  | Some c => c
  | None =>
      match fragment_of hh_title h with
      | Some t => t
      | None => truncated (hs_content (hit_source h))
      end
  end.
Proof.
  unfold OpenSearchService.snippet, fragment_of, first_fragment, truncated.
  now destruct (hit_highlight h) as [[[[|c cs]|] [[|t ts]|]]|].
Qed.

(** The snippet of a hit is the first highlighted fragment of the content,
    else the first highlighted fragment of the title, else the content
    itself when it has at most 150 characters, else its first 150
    characters followed by three dots, 153 characters in all. *)
Theorem snippet_of_hit (h : Hit) :
  let content := hs_content (hit_source h) in
  (forall c, fragment_of hh_content h = Some c -> OpenSearchService.snippet h = c) /\
  (forall t, fragment_of hh_content h = None -> fragment_of hh_title h = Some t ->
     OpenSearchService.snippet h = t) /\
  (fragment_of hh_content h = None -> fragment_of hh_title h = None ->
   (String.length content <= 150)%nat ->
   OpenSearchService.snippet h = content) /\
  (fragment_of hh_content h = None -> fragment_of hh_title h = None ->
   (150 < String.length content)%nat ->
   String.length (OpenSearchService.snippet h) = 153%nat /\
   exists head rest,
     OpenSearchService.snippet h = head +:+ "..." /\
     String.length head = 150%nat /\ content = head +:+ rest).
Proof.
  intros content. subst content. rewrite snippet_cases.
  split; [|split; [|split]].
  - now intros c ->.
  - now intros t -> ->.
  - intros -> -> Hlen. unfold truncated.
    destruct (Nat.ltb_spec 150 (String.length (hs_content (hit_source h))));
      [lia|].
    now rewrite prefix_all, append_empty_r.
  - intros -> -> Hlen. unfold truncated.
    destruct (Nat.ltb_spec 150 (String.length (hs_content (hit_source h))));
      [|lia].
    split.
    + rewrite length_app, prefix_length.
      change (String.length "...") with 3%nat. lia.
    + destruct (prefix_is_prefix 150 (hs_content (hit_source h))) as [rest Hrest].
      eexists _, rest. split; [reflexivity|]. split; [|exact Hrest].
      rewrite prefix_length. lia.
Qed.

Lemma snippet_of_hit_witness :
  OpenSearchService.snippet
    {| hit_source := {| hs_doc_id := "doc-1"; hs_title := "Title";
                        hs_content := "short content"; hs_tags := None |};
       hit_highlight := Some {| hh_content := Some []; hh_title := None |};
       hit_score := 1 |} = "short content".
Proof.
  apply (snippet_of_hit
           {| hit_source := {| hs_doc_id := "doc-1"; hs_title := "Title";
                               hs_content := "short content"; hs_tags := None |};
              hit_highlight := Some {| hh_content := Some []; hh_title := None |};
              hit_score := 1 |}).
  - reflexivity.
  - reflexivity.
  - simpl. lia.
Defined.
